(** * MVV data processor: a shallow embedding of
      [scripts/ai-analysis/mvv_data_processor.py]

    The script reads a CSV of company Mission / Vision / Values texts with
    pandas, cleans the three texts, builds one combined text per company,
    keeps the companies whose three texts are all present, groups them by
    category and writes the result as JSON.

    Python strings are sequences of Unicode code points, so a string is a
    [list N] here.  Exceptions are values of [result]; the methods of
    [MVVDataProcessor] take the object and return the updated object
    together with what the call returned or raised. *)

From Stdlib Require Import NArith ZArith QArith Bool Ascii String.
From Stdlib Require Import DecimalString Lia.
From Stdlib Require Import List Permutation.
Import ListNotations.
Close Scope Q_scope.

Set Implicit Arguments.
Set Warnings "-register-all".

(** ** Python strings *)

Module PyStr.

Definition pystr := list N.

(** Code points of a UTF-8 encoded literal of this file.  Ill-formed input
    yields U+FFFD; the literals below are all well formed. *)
Definition cont (a : ascii) : N := N.land (N_of_ascii a) 63.

Fixpoint utf8_decode (s : string) : pystr :=
  match s with
  | EmptyString => []
  | String a r =>
      let b := N_of_ascii a in
      if (b <? 128)%N then b :: utf8_decode r
      else if (b <? 224)%N then
        match r with
        | String a1 r1 => (N.land b 31 * 64 + cont a1)%N :: utf8_decode r1
        | EmptyString => [65533%N]
        end
      else if (b <? 240)%N then
        match r with
        | String a1 (String a2 r2) =>
            (N.land b 15 * 4096 + cont a1 * 64 + cont a2)%N :: utf8_decode r2
        | _ => [65533%N]
        end
      else
        match r with
        | String a1 (String a2 (String a3 r3)) =>
            (N.land b 7 * 262144 + cont a1 * 4096 + cont a2 * 64 + cont a3)%N
              :: utf8_decode r3
        | _ => [65533%N]
        end
  end.

Definition u (s : string) : pystr := utf8_decode s.

Definition SEMICOLON : N := 59.         (* ';'  U+003B *)
Definition IDEOGRAPHIC_COMMA : N := 12289. (* U+3001 *)

(** [str.isspace] on one code point: the characters [str.strip()] removes
    (Unicode bidirectional class WS, B or S, or category Zs). *)
Definition py_isspace (c : N) : bool :=
  ((9 <=? c) && (c <=? 13) || (28 <=? c) && (c <=? 32)
   || (c =? 133) || (c =? 160) || (c =? 5760)
   || (8192 <=? c) && (c <=? 8202)
   || (c =? 8232) || (c =? 8233) || (c =? 8239) || (c =? 8287)
   || (c =? 12288))%N.

Fixpoint lstrip (s : pystr) : pystr :=
  match s with
  | [] => []
  | c :: r => if py_isspace c then lstrip r else s
  end.

Definition rstrip (s : pystr) : pystr := rev (lstrip (rev s)).

(** [s.strip()] *)
Definition strip (s : pystr) : pystr := rstrip (lstrip s).

(** [old in s] for a one-character [old] *)
Definition contains_char (old : N) (s : pystr) : bool :=
  existsb (N.eqb old) s.

(** [s.replace(old, new)] for a one-character [old] *)
Definition replace_char (old : N) (new : pystr) (s : pystr) : pystr :=
  flat_map (fun c => if (c =? old)%N then new else [c]) s.

(** [sep.join(parts)] *)
Fixpoint join (sep : pystr) (parts : list pystr) : pystr :=
  match parts with
  | [] => []
  | p :: rest =>
      match rest with
      | [] => p
      | _ :: _ => p ++ sep ++ join sep rest
      end
  end.

(** truth value of a string: [bool(s)] *)
Definition truthy (s : pystr) : bool :=
  match s with [] => false | _ :: _ => true end.

(** [a == b] on strings *)
Fixpoint pystr_eqb (a b : pystr) : bool :=
  match a, b with
  | [], [] => true
  | x :: a', y :: b' => (x =? y)%N && pystr_eqb a' b'
  | _, _ => false
  end.

(** [str(n)] for a non-negative integer *)
Definition str_of_nat (n : nat) : pystr :=
  u (NilEmpty.string_of_uint (Nat.to_uint n)).

End PyStr.
Import PyStr.

(** ** Python numbers

    The script never computes with numbers: it converts cells with
    [float(...)], prints them and uses them as dictionary keys.  The
    numeric scalars (int, float and bool objects other than NaN) are kept
    abstract, with the operations the script applies to them. *)

Inductive pyfloat (num : Type) : Type :=
| FNaN (oid : N)      (* a NaN object; [oid] is its identity *)
| FNum (x : num).     (* any other float *)

Arguments FNaN {num} oid.
Arguments FNum {num} x.

Class PyNum : Type := {
  num : Type;
  num_zero : num;                            (* the literal 0.0 *)
  num_float : num -> option num;             (* float(x); None: OverflowError *)
  num_str : num -> pystr;                    (* str(x) *)
  num_json : num -> pystr;                   (* x as json.dump writes it *)
  num_eqb : num -> num -> bool;              (* x == y *)
  float_of_str : pystr -> option (pyfloat num)
                                             (* float(s); None: ValueError *)
}.

(** What the proofs use of Python's numbers: [float] returns the float 0.0
    as it is, and [==] is an equivalence on the numbers other than NaN. *)
Class PyNumLaws (PN : PyNum) : Prop := {
  num_float_zero : num_float num_zero = Some num_zero;
  num_eqb_refl : forall x, num_eqb x x = true;
  num_eqb_sym : forall x y, num_eqb x y = num_eqb y x;
  num_eqb_trans : forall x y z,
      num_eqb x y = true -> num_eqb y z = true -> num_eqb x z = true
}.

(** ** Exceptions *)

Inductive exc_class : Type :=
| ValueError | KeyError | ZeroDivisionError | AttributeError | OverflowError.

(** [exc_arg] is the argument of the exception: the message of a raised
    [ValueError(...)], the key of a [KeyError], the rejected literal of
    [float(s)]. *)
Record exn : Type := Exn { exc_type : exc_class; exc_arg : pystr }.

Inductive result (A : Type) : Type :=
| Ok (a : A)
| Raise (e : exn).

Arguments Ok {A} a.
Arguments Raise {A} e.

Definition bind {A B} (r : result A) (k : A -> result B) : result B :=
  match r with
  | Ok a => k a
  | Raise e => Raise e
  end.

Notation "x <- r ;; k" := (bind r (fun x => k))
  (at level 61, r at next level, right associativity).

Section Model.

Context {PN : PyNum}.

(** ** Cells, rows and frames *)

Inductive cell : Type :=
| NaN (oid : N)        (* missing value: pandas stores a float NaN *)
| Str (s : pystr)
| Num (x : num).

(** A row of [iterrows()]: column labels with their values. *)
Definition Series := list (pystr * cell).

Record DataFrame : Type := {
  columns : list pystr;
  rows : list (list cell)
}.

Fixpoint series_lookup (key : pystr) (row : Series) : option cell :=
  match row with
  | [] => None
  | (k, v) :: rest => if pystr_eqb k key then Some v else series_lookup key rest
  end.

(** [row.get(key, default)] *)
Definition series_get (row : Series) (key : pystr) (default : cell) : cell :=
  match series_lookup key row with
  | Some v => v
  | None => default
  end.

(** [frame.iterrows()] on a frame with the default index 0, 1, 2, ...:
    the one [read_csv] builds when the data lines have as many fields as
    the header.  (With one field more, pandas takes the first column as
    the index; such frames are outside this model.) *)
Fixpoint iterrows_from (idx : nat) (cols : list pystr) (rs : list (list cell))
  : list (nat * Series) :=
  match rs with
  | [] => []
  | r :: rest => (idx, combine cols r) :: iterrows_from (S idx) cols rest
  end.

Definition iterrows (df : DataFrame) : list (nat * Series) :=
  iterrows_from 0 (columns df) (rows df).

(** [frame[key]]: the column, or KeyError *)
Definition frame_column (df : DataFrame) (key : pystr) : result (list cell) :=
  if existsb (pystr_eqb key) (columns df)
  then Ok (map (fun r => series_get (combine (columns df) r) key (NaN 0)) (rows df))
  else Raise (Exn KeyError key).

(** [pd.isna(x)] *)
Definition isna (x : cell) : bool :=
  match x with NaN _ => true | _ => false end.

(** [x == ''] *)
Definition eq_empty_str (x : cell) : bool :=
  match x with Str [] => true | _ => false end.

(** [str(x)] *)
Definition py_str (x : cell) : pystr :=
  match x with
  | NaN _ => u "nan"
  | Str s => s
  | Num n => num_str n
  end.

(** [float(x)]: a NaN is returned as it is, a string is parsed or raises
    ValueError, a number is converted; an int beyond the range of a float
    raises OverflowError. *)
Definition py_float (x : cell) : result (pyfloat num) :=
  match x with
  | NaN oid => Ok (FNaN oid)
  | Num n =>
      match num_float n with
      | Some y => Ok (FNum y)
      | None => Raise (Exn OverflowError (u "int too large to convert to float"))
      end
  | Str s =>
      match float_of_str s with
      | Some f => Ok f
      | None => Raise (Exn ValueError s)
      end
  end.

(** ** [_clean_text] *)
Definition _clean_text (text : cell) : pystr :=
  if isna text || eq_empty_str text then []
  else
    let text := strip (py_str text) in
    let text :=
      if contains_char SEMICOLON text
      then replace_char SEMICOLON [IDEOGRAPHIC_COMMA] text
      else text in
    text.

(** ** [_create_combined_mvv] *)
Definition _create_combined_mvv (mission vision values : pystr) : pystr :=
  let parts := [] in
  let parts := if truthy mission then parts ++ [u "Mission: " ++ mission] else parts in
  let parts := if truthy vision then parts ++ [u "Vision: " ++ vision] else parts in
  let parts := if truthy values then parts ++ [u "Values: " ++ values] else parts in
  join (u " | ") parts.

(** ** Processed companies *)

Record ConfidenceScores : Type := {
  cs_mission : pyfloat num;
  cs_vision : pyfloat num;
  cs_values : pyfloat num
}.

(** The dictionary [company_data], one field per key, in the order of the
    dictionary display. *)
Record Company : Type := {
  c_id : pystr;
  c_name : cell;
  c_website : cell;
  c_category : cell;
  c_mission : pystr;
  c_vision : pystr;
  c_values : pystr;
  c_combined_mvv : pystr;
  c_confidence_scores : ConfidenceScores;
  c_extraction_source : cell;
  c_extracted_from : cell;
  c_has_complete_mvv : bool
}.

(** The body of the [try] block of [preprocess_mvv_data] for one row.
    Only the three [float(...)] calls can raise; they are evaluated in the
    order of the dictionary display. *)
Definition process_row (idx : nat) (row : Series) : result Company :=
  let mission := _clean_text (series_get row (u "mission") (Str [])) in
  let vision := _clean_text (series_get row (u "vision") (Str [])) in
  let values := _clean_text (series_get row (u "values") (Str [])) in
  let combined_mvv := _create_combined_mvv mission vision values in
  fm <- py_float (series_get row (u "missionConfidence") (Num num_zero)) ;;
  fv <- py_float (series_get row (u "visionConfidence") (Num num_zero)) ;;
  fx <- py_float (series_get row (u "valuesConfidence") (Num num_zero)) ;;
  Ok {| c_id := u "company_" ++ str_of_nat (idx + 1);
        c_name := series_get row (u "companyName") (Str []);
        c_website := series_get row (u "website") (Str []);
        c_category := series_get row (u "category") (Str []);
        c_mission := mission;
        c_vision := vision;
        c_values := values;
        c_combined_mvv := combined_mvv;
        c_confidence_scores :=
          {| cs_mission := fm; cs_vision := fv; cs_values := fx |};
        c_extraction_source := series_get row (u "extractionSource") (Str []);
        c_extracted_from := series_get row (u "extractedFrom") (Str []);
        c_has_complete_mvv := truthy mission && truthy vision && truthy values |}.

(** One iteration of the [for] loop: the company is appended, or the
    exception is caught, reported with the row number and the row skipped.
    The loop state is [processed_companies] and the warnings printed. *)
Definition loop_state : Type := (list Company * list (nat * exn))%type.

Definition preprocess_step (st : loop_state) (ir : nat * Series) : loop_state :=
  let '(processed_companies, warnings) := st in
  let '(idx, row) := ir in
  match process_row idx row with
  | Ok company_data => (processed_companies ++ [company_data], warnings)
  | Raise e => (processed_companies, warnings ++ [(idx + 1, e)])
  end.

Definition preprocess_loop (df : DataFrame) : loop_state :=
  fold_left preprocess_step (iterrows df) ([], []).

(** ** The processor object *)

Record MVVDataProcessor : Type := {
  csv_path : pystr;
  data : option DataFrame;
  processed_data : option (list Company)
}.

(** [MVVDataProcessor(csv_path)] *)
Definition __init__ (path : pystr) : MVVDataProcessor :=
  {| csv_path := path; data := None; processed_data := None |}.

(** [preprocess_mvv_data]; with [self.data] still None the call
    [self.data.iterrows()] raises AttributeError outside the [try]. *)
Definition preprocess_mvv_data (self : MVVDataProcessor)
  : MVVDataProcessor * result (list Company) :=
  match data self with
  | None => (self, Raise (Exn AttributeError (u "iterrows")))
  | Some df =>
      let processed_companies := fst (preprocess_loop df) in
      ({| csv_path := csv_path self;
          data := data self;
          processed_data := Some processed_companies |},
       Ok processed_companies)
  end.

(** ** [_print_basic_stats]

    The figures it prints, or the exception it raises.  The per-category
    counts of [value_counts()] are not kept: once the column exists they
    cannot raise. *)
Record BasicStats : Type := {
  st_total : nat;
  st_completed : nat;
  st_mission_filled : nat;
  st_vision_filled : nat;
  st_values_filled : nat
}.

Definition cell_is_str (s : pystr) (x : cell) : bool :=
  match x with Str t => pystr_eqb t s | _ => false end.

(** [col.notna() & (col != '')], counted *)
Definition count_filled (col : list cell) : nat :=
  length (filter (fun x => negb (isna x) && negb (eq_empty_str x)) col).

Definition _print_basic_stats (df : DataFrame) : result BasicStats :=
  status <- frame_column df (u "status") ;;
  _ <- frame_column df (u "category") ;;
  mission <- frame_column df (u "mission") ;;
  vision <- frame_column df (u "vision") ;;
  values <- frame_column df (u "values") ;;
  match length (rows df) with
  | O => Raise (Exn ZeroDivisionError (u "division by zero"))
  | S _ =>
      Ok {| st_total := length (rows df);
            st_completed := length (filter (cell_is_str (u "completed")) status);
            st_mission_filled := count_filled mission;
            st_vision_filled := count_filled vision;
            st_values_filled := count_filled values |}
  end.

(** [load_data]; [read_csv] is the outcome of [pd.read_csv(self.csv_path)].
    [self.data] is assigned before the statistics are printed, and the
    handler prints and re-raises. *)
Definition load_data (self : MVVDataProcessor) (read_csv : pystr -> result DataFrame)
  : MVVDataProcessor * result DataFrame :=
  match read_csv (csv_path self) with
  | Raise e => (self, Raise e)
  | Ok df =>
      let self' := {| csv_path := csv_path self;
                      data := Some df;
                      processed_data := processed_data self |} in
      match _print_basic_stats df with
      | Raise e => (self', Raise e)
      | Ok _ => (self', Ok df)
      end
  end.

(** ** [get_analysis_ready_data] *)

(** Dictionary keys match by identity or by [==]. *)
Definition key_eqb (a b : cell) : bool :=
  match a, b with
  | NaN i, NaN j => (i =? j)%N
  | Str s, Str t => pystr_eqb s t
  | Num x, Num y => num_eqb x y
  | _, _ => false
  end.

(** A dictionary in insertion order. *)
Definition CategoryDict : Type := list (cell * list Company).

(** [category in by_category] *)
Definition dict_contains (category : cell) (d : CategoryDict) : bool :=
  existsb (fun kv => key_eqb (fst kv) category) d.

(** [by_category[category].append(company)] on a key that is present *)
Fixpoint dict_append (d : CategoryDict) (category : cell) (company : Company)
  : CategoryDict :=
  match d with
  | [] => []
  | (k, l) :: rest =>
      if key_eqb k category then (k, l ++ [company]) :: rest
      else (k, l) :: dict_append rest category company
  end.

(** The body of the grouping loop. *)
Definition group_step (by_category : CategoryDict) (company : Company)
  : CategoryDict :=
  let category := c_category company in
  let by_category :=
    if negb (dict_contains category by_category)
    then by_category ++ [(category, [])]
    else by_category in
  dict_append by_category category company.

Record datetime : Type := {
  year : nat; month : nat; day : nat;
  hour : nat; minute : nat; second : nat; microsecond : nat
}.

Definition zfill (width : nat) (s : pystr) : pystr :=
  repeat 48%N (width - length s) ++ s.

(** [now.isoformat()] *)
Definition isoformat (now : datetime) : pystr :=
  zfill 4 (str_of_nat (year now)) ++ u "-" ++ zfill 2 (str_of_nat (month now))
  ++ u "-" ++ zfill 2 (str_of_nat (day now)) ++ u "T"
  ++ zfill 2 (str_of_nat (hour now)) ++ u ":" ++ zfill 2 (str_of_nat (minute now))
  ++ u ":" ++ zfill 2 (str_of_nat (second now))
  ++ match microsecond now with
     | O => []
     | S _ => u "." ++ zfill 6 (str_of_nat (microsecond now))
     end.

Record AnalysisData : Type := {
  total_companies : nat;
  complete_mvv_companies : nat;
  companies : list Company;
  by_category : CategoryDict;
  categories : list cell;
  processed_at : pystr
}.

Definition NOT_PREPROCESSED : pystr :=
  u "データが前処理されていません。preprocess_mvv_data()を先に実行してください。".

(** [now] is what [datetime.now()] returns during the call. *)
Definition get_analysis_ready_data (self : MVVDataProcessor) (now : datetime)
  : result AnalysisData :=
  match processed_data self with
  | None | Some [] => Raise (Exn ValueError NOT_PREPROCESSED)
  | Some processed =>
      let complete := filter c_has_complete_mvv processed in
      let by_cat := fold_left group_step complete [] in
      Ok {| total_companies := length processed;
            complete_mvv_companies := length complete;
            companies := complete;
            by_category := by_cat;
            categories := map fst by_cat;
            processed_at := isoformat now |}
  end.

(** ** [json.dump(analysis_data, f, ensure_ascii=False, indent=2)] *)

Inductive json : Type :=
| JLit (text : pystr)                   (* a number, true, false, NaN *)
| JString (s : pystr)
| JList (items : list json)
| JDict (items : list (pystr * json)).

Definition hex_digit (n : N) : N :=
  if (n <? 10)%N then (48 + n)%N else (87 + n)%N.

(** One character of a string, as [py_encode_basestring] writes it. *)
Definition escape_char (c : N) : pystr :=
  if (c =? 92)%N then u "\\"
  else if (c =? 34)%N then [92; 34]%N
  else if (c =? 8)%N then u "\b"
  else if (c =? 12)%N then u "\f"
  else if (c =? 10)%N then u "\n"
  else if (c =? 13)%N then u "\r"
  else if (c =? 9)%N then u "\t"
  else if (c <? 32)%N then u "\u00" ++ [hex_digit (c / 16); hex_digit (c mod 16)]%N
  else [c].

Definition encode_string (s : pystr) : pystr :=
  [34%N] ++ flat_map escape_char s ++ [34%N].

Definition newline_indent (level : nat) : pystr :=
  [10%N] ++ repeat 32%N (2 * level).

Fixpoint dumps (level : nat) (j : json) : pystr :=
  match j with
  | JLit text => text
  | JString s => encode_string s
  | JList [] => u "[]"
  | JList items =>
      u "[" ++ newline_indent (S level)
      ++ join (u "," ++ newline_indent (S level)) (map (dumps (S level)) items)
      ++ newline_indent level ++ u "]"
  | JDict [] => u "{}"
  | JDict items =>
      u "{" ++ newline_indent (S level)
      ++ join (u "," ++ newline_indent (S level))
           (map (fun kv => encode_string (fst kv) ++ u ": " ++ dumps (S level) (snd kv))
              items)
      ++ newline_indent level ++ u "}"
  end.

Definition json_of_float (f : pyfloat num) : json :=
  match f with
  | FNaN _ => JLit (u "NaN")
  | FNum x => JLit (num_json x)
  end.

Definition json_of_cell (x : cell) : json :=
  match x with
  | NaN _ => JLit (u "NaN")
  | Str s => JString s
  | Num n => JLit (num_json n)
  end.

(** A dictionary key that is not a string is written as the string of its
    JSON text. *)
Definition json_key_of_cell (x : cell) : pystr :=
  match x with
  | NaN _ => u "NaN"
  | Str s => s
  | Num n => num_json n
  end.

Definition json_of_bool (b : bool) : json :=
  JLit (if b then u "true" else u "false").

Definition json_of_company (c : Company) : json :=
  JDict
    [ (u "id", JString (c_id c));
      (u "name", json_of_cell (c_name c));
      (u "website", json_of_cell (c_website c));
      (u "category", json_of_cell (c_category c));
      (u "mission", JString (c_mission c));
      (u "vision", JString (c_vision c));
      (u "values", JString (c_values c));
      (u "combined_mvv", JString (c_combined_mvv c));
      (u "confidence_scores",
        JDict [ (u "mission", json_of_float (cs_mission (c_confidence_scores c)));
                (u "vision", json_of_float (cs_vision (c_confidence_scores c)));
                (u "values", json_of_float (cs_values (c_confidence_scores c))) ]);
      (u "extraction_source", json_of_cell (c_extraction_source c));
      (u "extracted_from", json_of_cell (c_extracted_from c));
      (u "has_complete_mvv", json_of_bool (c_has_complete_mvv c)) ].

Definition json_of_analysis_data (a : AnalysisData) : json :=
  JDict
    [ (u "total_companies", JLit (str_of_nat (total_companies a)));
      (u "complete_mvv_companies", JLit (str_of_nat (complete_mvv_companies a)));
      (u "companies", JList (map json_of_company (companies a)));
      (u "by_category",
        JDict (map (fun kv => (json_key_of_cell (fst kv),
                               JList (map json_of_company (snd kv))))
                 (by_category a)));
      (u "categories", JList (map json_of_cell (categories a)));
      (u "processed_at", JString (processed_at a)) ].

(** ** [save_processed_data]

    The result is the text written to [output_path]; the file is taken to
    be writable and [json.dump] to accept every cell, as it does for the
    str, int, float and bool objects of a frame of mixed columns (it would
    reject the numpy scalars of a frame whose columns are all integers or
    all booleans).  The handler prints the exception and re-raises it. *)
Definition save_processed_data (self : MVVDataProcessor) (now : datetime)
  : result pystr :=
  analysis_data <- get_analysis_ready_data self now ;;
  Ok (dumps 0 (json_of_analysis_data analysis_data)).

(** ** [main] *)

Definition CSV_PATH : pystr := u "../data/analysis-data/mvv-data-95companies.csv".

(** The exit status, with the text of the output file when it was written. *)
Definition main (read_csv : pystr -> result DataFrame) (now : datetime)
  : nat * option pystr :=
  let processor := __init__ CSV_PATH in
  match load_data processor read_csv with
  | (_, Raise _) => (1, None)
  | (processor, Ok _) =>
      match preprocess_mvv_data processor with
      | (_, Raise _) => (1, None)
      | (processor, Ok _) =>
          match save_processed_data processor now with
          | Raise _ => (1, None)
          | Ok text => (0, Some text)
          end
      end
  end.

End Model.

(** ** Notions of the specification *)

(** The first character is a white space / the last one is. *)
Definition head_space (s : pystr) : bool :=
  match s with
  | [] => false
  | c :: _ => py_isspace c
  end.

Definition last_space (s : pystr) : bool := head_space (rev s).

(** Replacing the semicolons, character by character. *)
Definition semicolon_to_comma (c : N) : N :=
  if (c =? SEMICOLON)%N then IDEOGRAPHIC_COMMA else c.

(** The two steps of the cleaning of a string, without the test that
    guards the replacement. *)
Definition normalise (s : pystr) : pystr := map semicolon_to_comma (strip s).

(** The combined text in the words of the specification: the non-empty
    fields in the order mission, vision, values, each behind its label,
    joined by the separator. *)
Definition labelled_fields (mission vision values : pystr) : list (pystr * pystr) :=
  [ (u "Mission: ", mission); (u "Vision: ", vision); (u "Values: ", values) ].

Definition combined_text_spec (mission vision values : pystr) : pystr :=
  join (u " | ")
    (map (fun p => fst p ++ snd p)
       (filter (fun p => truthy (snd p)) (labelled_fields mission vision values))).

Section Notions.

Context {PN : PyNum}.

(** The companies of the rows that are processed without an exception,
    in the order of the rows, and the warnings of the other rows. *)
Definition successes (irs : list (nat * Series)) : list Company :=
  flat_map (fun ir => match process_row (fst ir) (snd ir) with
                      | Ok c => [c]
                      | Raise _ => []
                      end) irs.

Definition failures (irs : list (nat * Series)) : list (nat * exn) :=
  flat_map (fun ir => match process_row (fst ir) (snd ir) with
                      | Ok _ => []
                      | Raise e => [(fst ir + 1, e)]
                      end) irs.

Definition CONFIDENCE_KEYS : list pystr :=
  [ u "missionConfidence"; u "visionConfidence"; u "valuesConfidence" ].

(** The cell under [key] is a string that [float] rejects. *)
Definition unparseable (row : Series) (key : pystr) : bool :=
  match series_lookup key row with
  | Some (Str s) => match float_of_str s with None => true | Some _ => false end
  | _ => false
  end.

(** The cell that [row.get(key, 0.0)] gives is a number that [float]
    cannot convert. *)
Definition overflowing (row : Series) (key : pystr) : bool :=
  match series_get row key (Num num_zero) with
  | Num n => match num_float n with None => true | Some _ => false end
  | _ => false
  end.


(** The keys in the order in which they are first seen: a key stays and
    the later keys that match it go. *)
Fixpoint first_seen (keys : list cell) : list cell :=
  match keys with
  | [] => []
  | k :: rest => k :: filter (fun k' => negb (key_eqb k k')) (first_seen rest)
  end.

(** No key matches a later one. *)
Fixpoint distinct_keys (keys : list cell) : Prop :=
  match keys with
  | [] => True
  | k :: rest => Forall (fun k' => key_eqb k k' = false) rest /\ distinct_keys rest
  end.

(** The company is of the category of this key. *)
Definition in_category (k : cell) (c : Company) : bool :=
  key_eqb k (c_category c).

Definition group (cs : list Company) : CategoryDict :=
  fold_left group_step cs [].

(** The analysis data with another time stamp. *)
Definition with_processed_at (a : AnalysisData) (ts : pystr) : AnalysisData :=
  {| total_companies := total_companies a;
     complete_mvv_companies := complete_mvv_companies a;
     companies := companies a;
     by_category := by_category a;
     categories := categories a;
     processed_at := ts |}.

(** The exception of the guard of [get_analysis_ready_data]. *)
Definition GUARD_ERROR : exn := Exn ValueError NOT_PREPROCESSED.

End Notions.

(** ** Further notions *)

(** The string has a character that is not white space. *)
Definition has_text (s : pystr) : bool :=
  existsb (fun c => negb (py_isspace c)) s.

Section FurtherNotions.

Context {PN : PyNum}.

(** The columns that [_print_basic_stats] indexes, in the order in which
    it does. *)
Definition STATS_COLUMNS : list pystr :=
  [ u "status"; u "category"; u "mission"; u "vision"; u "values" ].

Definition has_column (df : DataFrame) (key : pystr) : bool :=
  existsb (pystr_eqb key) (columns df).

(** The cells of the column [key], row by row: what [frame[key]] holds
    when the column exists. *)
Definition column_cells (df : DataFrame) (key : pystr) : list cell :=
  map (fun r => series_get (combine (columns df) r) key (NaN 0)) (rows df).

(** The cell holds a text: it is not missing, and what [str] makes of it
    is not white space only. *)
Definition cell_has_text (x : cell) : bool :=
  match x with
  | NaN _ => false
  | Str s => has_text s
  | Num n => has_text (num_str n)
  end.

(** [x.notna() & (x != '')] on one cell, as the statistics count it *)
Definition filled (x : cell) : bool := negb (isna x) && negb (eq_empty_str x).

End FurtherNotions.

(** ** A concrete number model

    Numbers as exact decimals: an int, a bool, a finite float written
    [m * 10^e] with its sign, or an infinity.  [float(s)] follows the
    grammar of Python's float literals over ASCII digits.  Rounding to
    binary64 is not modelled, so the model agrees with Python on literals
    of at most 15 significant digits within the range of a double. *)

Module Dec.

Inductive dnum : Type :=
| DInt (z : Z)
| DBool (b : bool)
| DFloat (neg : bool) (m : N) (e : Z)
| DInf (neg : bool).

Definition signed (neg : bool) (m : N) : Z :=
  if neg then (- Z.of_N m)%Z else Z.of_N m.

(** The value: a rational, or an infinity with its sign. *)
Definition dval (x : dnum) : Q + bool :=
  match x with
  | DInt z => inl (inject_Z z)
  | DBool b => inl (inject_Z (if b then 1 else 0))
  | DFloat neg m e => inl (inject_Z (signed neg m) * Qpower (10 # 1) e)%Q
  | DInf neg => inr neg
  end.

Definition deqb (x y : dnum) : bool :=
  match dval x, dval y with
  | inl p, inl q => Qeq_bool p q
  | inr a, inr b => Bool.eqb a b
  | _, _ => false
  end.

(** [float(x)]: an int that rounds beyond the largest double raises
    OverflowError. *)
Definition dfloat (x : dnum) : option dnum :=
  match x with
  | DInt z =>
      if (Z.abs z <? 2 ^ 1024 - 2 ^ 970)%Z
      then Some (DFloat (z <? 0)%Z (Z.abs_N z) 0)
      else None
  | DBool b => Some (DFloat false (if b then 1 else 0)%N 0)
  | DFloat _ _ _ | DInf _ => Some x
  end.

Definition str_of_N (n : N) : pystr := str_of_nat (N.to_nat n).

Definition str_of_Z (z : Z) : pystr :=
  if (z <? 0)%Z then u "-" ++ str_of_N (Z.abs_N z) else str_of_N (Z.abs_N z).

(** Trailing zeros of the digits move into the exponent. *)
Fixpoint strip_zeros (digits : pystr) (e : Z) : pystr * Z :=
  match digits with
  | [] => ([], e)
  | d :: r =>
      match strip_zeros r e with
      | ([], e') => if (d =? 48)%N then ([], e' + 1)%Z else ([d], e')
      | (r', e') => (d :: r', e')
      end
  end.

(** [repr] of a finite float: the digits, in fixed notation when the
    decimal point falls in (-4, 16], with an exponent otherwise. *)
Definition float_repr (neg : bool) (m : N) (e : Z) : pystr :=
  let sign := if neg then u "-" else [] in
  match strip_zeros (str_of_N m) e with
  | ([], _) => sign ++ u "0.0"
  | (d :: ds, e') =>
      let n := Z.of_nat (length (d :: ds)) in
      let decpt := (n + e')%Z in
      if ((decpt <=? -4) || (16 <? decpt))%Z then
        let x := (decpt - 1)%Z in
        sign ++ [d] ++ (match ds with [] => [] | _ => u "." ++ ds end)
        ++ u "e" ++ (if (x <? 0)%Z then u "-" else u "+")
        ++ zfill 2 (str_of_N (Z.abs_N x))
      else if (decpt <=? 0)%Z then
        sign ++ u "0." ++ repeat 48%N (Z.to_nat (- decpt)) ++ d :: ds
      else if (n <=? decpt)%Z then
        sign ++ d :: ds ++ repeat 48%N (Z.to_nat (decpt - n)) ++ u ".0"
      else
        sign ++ firstn (Z.to_nat decpt) (d :: ds) ++ u "."
        ++ skipn (Z.to_nat decpt) (d :: ds)
  end.

Definition dstr (x : dnum) : pystr :=
  match x with
  | DInt z => str_of_Z z
  | DBool b => if b then u "True" else u "False"
  | DFloat neg m e => float_repr neg m e
  | DInf neg => if neg then u "-inf" else u "inf"
  end.

Definition djson (x : dnum) : pystr :=
  match x with
  | DInt z => str_of_Z z
  | DBool b => if b then u "true" else u "false"
  | DFloat neg m e => float_repr neg m e
  | DInf neg => if neg then u "-Infinity" else u "Infinity"
  end.

(** *** [float(s)] on a string *)

Definition digit_val (c : N) : option N :=
  if ((48 <=? c) && (c <=? 57))%N then Some (c - 48)%N else None.

(** The rest of a digit part: digits, each optionally preceded by one
    underscore.  Returns the value, the number of digits and what is left. *)
Fixpoint digits_tail (acc : N) (cnt : nat) (s : pystr) : N * nat * pystr :=
  match s with
  | [] => (acc, cnt, [])
  | c :: r =>
      match digit_val c with
      | Some d => digits_tail (acc * 10 + d)%N (S cnt) r
      | None =>
          if (c =? 95)%N then
            match r with
            | c2 :: r2 =>
                match digit_val c2 with
                | Some d => digits_tail (acc * 10 + d)%N (S cnt) r2
                | None => (acc, cnt, s)
                end
            | [] => (acc, cnt, s)
            end
          else (acc, cnt, s)
      end
  end.

Definition digitpart (acc : N) (s : pystr) : option (N * nat * pystr) :=
  match s with
  | c :: r =>
      match digit_val c with
      | Some d => Some (digits_tail (acc * 10 + d)%N 1 r)
      | None => None
      end
  | [] => None
  end.

Definition take_sign (s : pystr) : bool * pystr :=
  match s with
  | c :: r => if (c =? 45)%N then (true, r)
              else if (c =? 43)%N then (false, r) else (false, s)
  | [] => (false, [])
  end.

(** [number ::= [digitpart] "." digitpart | digitpart ["."]]: the digits
    as one integer, and how many of them follow the point. *)
Definition number (s : pystr) : option (N * nat * pystr) :=
  match digitpart 0 s with
  | Some (i, _, rest) =>
      match rest with
      | 46%N :: rest' =>
          match digitpart i rest' with
          | Some (m, cnt, rest'') => Some (m, cnt, rest'')
          | None => Some (i, 0%nat, rest')
          end
      | _ => Some (i, 0%nat, rest)
      end
  | None =>
      match s with
      | 46%N :: rest' => digitpart 0 rest'
      | _ => None
      end
  end.

(** [exponent ::= ("e" | "E") [sign] digitpart], optional *)
Definition exponent (s : pystr) : option (Z * pystr) :=
  match s with
  | [] => Some (0%Z, [])
  | c :: r =>
      if ((c =? 101) || (c =? 69))%N then
        let '(neg, r') := take_sign r in
        match digitpart 0 r' with
        | Some (x, _, rest) => Some (signed neg x, rest)
        | None => None
        end
      else Some (0%Z, s)
  end.

Definition lower (c : N) : N :=
  if ((65 <=? c) && (c <=? 90))%N then (c + 32)%N else c.

Definition dfloat_of_str (s : pystr) : option (pyfloat dnum) :=
  let '(neg, body) := take_sign (strip s) in
  let word := map lower body in
  if pystr_eqb word (u "inf") || pystr_eqb word (u "infinity")
  then Some (FNum (DInf neg))
  else if pystr_eqb word (u "nan") then Some (FNaN 0)
  else
    match number body with
    | Some (m, frac, rest) =>
        match exponent rest with
        | Some (x, []) => Some (FNum (DFloat neg m (x - Z.of_nat frac)))
        | _ => None
        end
    | None => None
    end.

Definition DecNum : PyNum :=
  {| num := dnum;
     num_zero := DFloat false 0 0;
     num_float := dfloat;
     num_str := dstr;
     num_json := djson;
     num_eqb := deqb;
     float_of_str := dfloat_of_str |}.

End Dec.

(** ** Worked inputs, on the decimal numbers *)

Module Samples.

#[local] Existing Instance Dec.DecNum.

Definition txt (s : string) : cell := Str (u s).

(** The float [m * 10^e] *)
Definition flt (m : N) (e : Z) : cell := Num (Dec.DFloat false m e).

Definition score (m : N) (e : Z) : pyfloat Dec.dnum := FNum (Dec.DFloat false m e).

Definition SAMPLE_COLUMNS : list pystr :=
  map u [ "companyName"; "website"; "category"; "status"; "mission"; "vision";
          "values"; "missionConfidence"; "valuesConfidence";
          "extractionSource"; "extractedFrom" ]%string.

Definition acme_cells : list cell :=
  [ txt "Acme"; txt "https://acme.example"; txt "IT"; txt "completed";
    txt "  Build tools; ship them "; txt "See far";
    txt "Integrity; Respect; Excellence"; txt "0.9"; flt 8 (-1);
    txt "openai"; txt "web" ].

Definition gamma_cells : list cell :=
  [ txt "Gamma"; txt "https://gamma.example"; txt "IT"; txt "completed";
    txt "Make"; txt "Grow"; txt "Care"; txt "abc"; flt 5 (-1);
    txt "openai"; txt "web" ].

(** Five rows.  There is no [visionConfidence] column; the third row has
    a confidence that is not a number, so the column holds strings; the
    second row has no mission and no [valuesConfidence]. *)
Definition sample_frame : DataFrame :=
  {| columns := SAMPLE_COLUMNS;
     rows :=
       [ acme_cells;
         [ txt "Beta"; txt "https://beta.example"; txt "Finance"; txt "completed";
           NaN 1; txt "Lead"; txt "Trust"; txt "0.7"; NaN 2;
           txt "openai"; txt "web" ];
         gamma_cells;
         [ txt "Delta"; txt "https://delta.example"; txt "Finance"; txt "pending";
           txt "Serve"; txt "Last"; txt "Honesty"; txt "1"; flt 1 0;
           txt "openai"; txt "web" ];
         [ txt "Echo"; txt "https://echo.example"; txt "IT"; txt "completed";
           txt "Connect"; txt "Unite"; txt "Open; Fair"; txt "0.5"; flt 25 (-2);
           txt "openai"; txt "web" ] ] |}.

Definition acme_row : Series := combine SAMPLE_COLUMNS acme_cells.

Definition gamma_row : Series := combine SAMPLE_COLUMNS gamma_cells.

(** What the first row becomes. *)
Definition acme : Company :=
  {| c_id := u "company_1";
     c_name := txt "Acme";
     c_website := txt "https://acme.example";
     c_category := txt "IT";
     c_mission := u "Build tools、 ship them";
     c_vision := u "See far";
     c_values := u "Integrity、 Respect、 Excellence";
     c_combined_mvv :=
       u "Mission: Build tools、 ship them | Vision: See far | Values: Integrity、 Respect、 Excellence";
     c_confidence_scores :=
       {| cs_mission := score 9 (-1);
          cs_vision := score 0 0;
          cs_values := score 8 (-1) |};
     c_extraction_source := txt "openai";
     c_extracted_from := txt "web";
     c_has_complete_mvv := true |}.

(** The frame of one row and without the [values] column. *)
Definition frame_without_values : DataFrame :=
  {| columns :=
       map u [ "companyName"; "website"; "category"; "status"; "mission";
               "vision"; "missionConfidence"; "visionConfidence";
               "valuesConfidence"; "extractionSource"; "extractedFrom" ]%string;
     rows :=
       [ [ txt "Acme"; txt "https://acme.example"; txt "IT"; txt "completed";
           txt "Build tools"; txt "See far"; flt 9 (-1); flt 9 (-1); NaN 1;
           txt "openai"; txt "web" ] ] |}.

(** The processor after [load_data] and after [preprocess_mvv_data]. *)
Definition loaded : MVVDataProcessor :=
  {| csv_path := CSV_PATH; data := Some sample_frame; processed_data := None |}.

Definition processed : MVVDataProcessor := fst (preprocess_mvv_data loaded).

Definition sample_now : datetime :=
  {| year := 2025; month := 7; day := 9; hour := 8; minute := 5; second := 3;
     microsecond := 1200 |}.

Definition EMPTY_ANALYSIS : AnalysisData :=
  {| total_companies := 0; complete_mvv_companies := 0; companies := [];
     by_category := []; categories := []; processed_at := [] |}.

Definition sample_analysis : AnalysisData :=
  match get_analysis_ready_data processed sample_now with
  | Ok a => a
  | Raise _ => EMPTY_ANALYSIS
  end.

(** A JSON text written with ' for the double quote. *)
Definition jtext (s : string) : pystr :=
  map (fun c => if (c =? 39)%N then 34%N else c) (u s).

(** A JSON text given line by line. *)
Definition jlines (lines : list string) : pystr :=
  join [10%N] (map jtext lines).

End Samples.

(** * Properties *)

(** ** The decimal numbers obey the laws *)

Section DecLaws.

Import Dec.

Lemma deqb_refl (x : dnum) : deqb x x = true.
Proof.
  unfold deqb. destruct (dval x) as [q | b].
  - apply Qeq_bool_refl.
  - apply Bool.eqb_reflx.
Qed.

Lemma deqb_sym (x y : dnum) : deqb x y = deqb y x.
Proof.
  unfold deqb. destruct (dval x) as [p | a], (dval y) as [q | b]; trivial.
  - apply Qeq_bool_comm.
  - destruct a, b; reflexivity.
Qed.

Lemma deqb_trans (x y z : dnum) :
  deqb x y = true -> deqb y z = true -> deqb x z = true.
Proof.
  unfold deqb.
  destruct (dval x) as [p | a], (dval y) as [q | b], (dval z) as [r | c];
    try discriminate; trivial.
  - apply Qeq_bool_trans.
  - destruct a, b, c; trivial; discriminate.
Qed.

Lemma DecNum_laws : PyNumLaws DecNum.
Proof.
  constructor.
  - reflexivity.
  - exact deqb_refl.
  - exact deqb_sym.
  - exact deqb_trans.
Qed.

End DecLaws.

(** ** Strings *)

Section StringFacts.

Lemma lstrip_head (s : pystr) : head_space (lstrip s) = false.
Proof.
  induction s as [| c r IH]; simpl; trivial.
  destruct (py_isspace c) eqn:E; simpl; trivial.
Qed.

Lemma lstrip_id (s : pystr) : head_space s = false -> lstrip s = s.
Proof.
  destruct s as [| c r]; simpl; trivial.
  intros ->. reflexivity.
Qed.

Lemma lstrip_suffix (s : pystr) : exists p, s = p ++ lstrip s.
Proof.
  induction s as [| c r [p IH]]; simpl.
  - exists []. reflexivity.
  - destruct (py_isspace c).
    + exists (c :: p). simpl. f_equal. exact IH.
    + exists []. reflexivity.
Qed.

(** Stripping on the left keeps a clean right end. *)
Lemma lstrip_last (s : pystr) : last_space s = false -> last_space (lstrip s) = false.
Proof.
  unfold last_space.
  induction s as [| c r IH]; simpl; trivial.
  intros H. destruct (py_isspace c) eqn:E; simpl; trivial.
  apply IH. destruct (rev r) as [| d t] eqn:R; simpl in *; trivial.
Qed.

Lemma rstrip_last (s : pystr) : last_space (rstrip s) = false.
Proof.
  unfold last_space, rstrip. rewrite rev_involutive. apply lstrip_head.
Qed.

Lemma rstrip_id (s : pystr) : last_space s = false -> rstrip s = s.
Proof.
  unfold last_space, rstrip. intros H.
  rewrite lstrip_id by exact H. apply rev_involutive.
Qed.

Lemma rstrip_head (s : pystr) : head_space s = false -> head_space (rstrip s) = false.
Proof.
  intros H.
  assert (L : last_space (rev s) = false)
    by (unfold last_space; rewrite rev_involutive; exact H).
  apply lstrip_last in L. unfold last_space in L. exact L.
Qed.

Lemma strip_head (s : pystr) : head_space (strip s) = false.
Proof. unfold strip. apply rstrip_head, lstrip_head. Qed.

Lemma strip_last (s : pystr) : last_space (strip s) = false.
Proof. unfold strip. apply rstrip_last. Qed.

Lemma strip_id (s : pystr) :
  head_space s = false -> last_space s = false -> strip s = s.
Proof.
  intros H L. unfold strip. rewrite (lstrip_id s H). apply rstrip_id, L.
Qed.

Lemma strip_length (s : pystr) : length (strip s) <= length s.
Proof.
  assert (A : forall t, length (lstrip t) <= length t).
  { intros t. destruct (lstrip_suffix t) as [p E].
    rewrite E at 2. rewrite length_app. lia. }
  unfold strip, rstrip. rewrite length_rev.
  etransitivity; [apply A |]. rewrite length_rev. apply A.
Qed.

Lemma replace_char_map (s : pystr) :
  replace_char SEMICOLON [IDEOGRAPHIC_COMMA] s = map semicolon_to_comma s.
Proof.
  unfold replace_char.
  induction s as [| c r IH]; cbn [flat_map map]; trivial.
  rewrite IH. unfold semicolon_to_comma.
  destruct (c =? SEMICOLON)%N; reflexivity.
Qed.

Lemma replace_none (s : pystr) :
  contains_char SEMICOLON s = false -> map semicolon_to_comma s = s.
Proof.
  unfold contains_char.
  induction s as [| c r IH]; cbn [existsb map]; trivial.
  intros H. apply orb_false_elim in H. destruct H as [H1 H2].
  unfold semicolon_to_comma at 1.
  rewrite N.eqb_sym, H1, IH by exact H2. reflexivity.
Qed.

Lemma replaced_has_none (s : pystr) :
  contains_char SEMICOLON (map semicolon_to_comma s) = false.
Proof.
  unfold contains_char.
  induction s as [| c r IH]; cbn [existsb map]; trivial.
  rewrite IH, orb_false_r. unfold semicolon_to_comma.
  destruct (c =? SEMICOLON)%N eqn:E; [reflexivity |].
  rewrite N.eqb_sym. exact E.
Qed.

Lemma semicolon_to_comma_space (c : N) :
  py_isspace (semicolon_to_comma c) = py_isspace c.
Proof.
  unfold semicolon_to_comma.
  destruct (c =? SEMICOLON)%N eqn:E; trivial.
  apply N.eqb_eq in E. subst c. reflexivity.
Qed.

Lemma replace_head (s : pystr) :
  head_space (map semicolon_to_comma s) = head_space s.
Proof. destruct s; simpl; trivial. apply semicolon_to_comma_space. Qed.

Lemma replace_last (s : pystr) :
  last_space (map semicolon_to_comma s) = last_space s.
Proof. unfold last_space. rewrite <- map_rev. apply replace_head. Qed.

Lemma normalise_fixed (t : pystr) :
  head_space t = false -> last_space t = false ->
  contains_char SEMICOLON t = false -> normalise t = t.
Proof.
  intros H L C. unfold normalise. rewrite strip_id by assumption.
  apply replace_none, C.
Qed.

Lemma normalise_clean (s : pystr) :
  head_space (normalise s) = false /\ last_space (normalise s) = false
  /\ contains_char SEMICOLON (normalise s) = false.
Proof.
  unfold normalise. rewrite replace_head, replace_last.
  auto using strip_head, strip_last, replaced_has_none.
Qed.

End StringFacts.

(** ** Cleaning and combining the texts *)

Section Cleaning.

Context {PN : PyNum}.

Lemma clean_text_normalise (x : cell) :
  _clean_text x = if isna x || eq_empty_str x then [] else normalise (py_str x).
Proof.
  unfold _clean_text, normalise.
  destruct (isna x || eq_empty_str x); trivial.
  destruct (contains_char SEMICOLON (strip (py_str x))) eqn:C.
  - apply replace_char_map.
  - symmetry. apply replace_none, C.
Qed.

Lemma clean_text_str (t : pystr) : _clean_text (Str t) = normalise t.
Proof.
  rewrite clean_text_normalise. destruct t; reflexivity.
Qed.

Lemma clean_text_clean (x : cell) :
  head_space (_clean_text x) = false /\ last_space (_clean_text x) = false
  /\ contains_char SEMICOLON (_clean_text x) = false.
Proof.
  rewrite clean_text_normalise.
  destruct (isna x || eq_empty_str x).
  - repeat split.
  - apply normalise_clean.
Qed.

(** C10: cleaning is idempotent; the cleaned strings are exactly the
    strings with no white space at either end and no semicolon, and these
    are the strings that cleaning leaves unchanged. *)
Theorem clean_text_idempotent (x : cell) :
  _clean_text (Str (_clean_text x)) = _clean_text x
  /\ (head_space (_clean_text x) = false /\ last_space (_clean_text x) = false
      /\ contains_char SEMICOLON (_clean_text x) = false)
  /\ (forall t : pystr,
        _clean_text (Str t) = t <->
        head_space t = false /\ last_space t = false
        /\ contains_char SEMICOLON t = false).
Proof.
  assert (F : forall t : pystr,
             _clean_text (Str t) = t <->
             head_space t = false /\ last_space t = false
             /\ contains_char SEMICOLON t = false).
  { intros t. split.
    - intros E. rewrite <- E. apply clean_text_clean.
    - intros (H & L & C). rewrite clean_text_str. now apply normalise_fixed. }
  split; [| split].
  - apply F, clean_text_clean.
  - apply clean_text_clean.
  - exact F.
Qed.

(** C4, as amended: every semicolon of the stripped text becomes an
    ideographic comma and no other character changes; the space that
    follows a semicolon stays. *)
Theorem clean_text_semicolons (x : cell) :
  _clean_text x
  = (if isna x || eq_empty_str x then []
     else map semicolon_to_comma (strip (py_str x)))
  /\ contains_char SEMICOLON (_clean_text x) = false
  /\ _clean_text (Str (u "Integrity; Respect; Excellence"))
     = u "Integrity、 Respect、 Excellence".
Proof.
  split; [| split].
  - apply clean_text_normalise.
  - apply clean_text_clean.
  - vm_compute. reflexivity.
Qed.

(** C6: the combined text is the labelled non-empty fields, in the order
    mission, vision, values, joined by " | ". *)
Theorem combined_mvv_spec (mission vision values : pystr) :
  _create_combined_mvv mission vision values
  = combined_text_spec mission vision values
  /\ _create_combined_mvv [] (u "See far") (u "Honesty")
     = u "Vision: See far | Values: Honesty".
Proof.
  split.
  - destruct mission, vision, values; reflexivity.
  - vm_compute. reflexivity.
Qed.

Lemma process_row_ok_inv (idx : nat) (row : Series) (c : Company) :
  process_row idx row = Ok c ->
  exists fm fv fx,
    py_float (series_get row (u "missionConfidence") (Num num_zero)) = Ok fm
    /\ py_float (series_get row (u "visionConfidence") (Num num_zero)) = Ok fv
    /\ py_float (series_get row (u "valuesConfidence") (Num num_zero)) = Ok fx
    /\ c_confidence_scores c
       = {| cs_mission := fm; cs_vision := fv; cs_values := fx |}
    /\ c_mission c = _clean_text (series_get row (u "mission") (Str []))
    /\ c_vision c = _clean_text (series_get row (u "vision") (Str []))
    /\ c_values c = _clean_text (series_get row (u "values") (Str []))
    /\ c_combined_mvv c
       = _create_combined_mvv (c_mission c) (c_vision c) (c_values c)
    /\ c_has_complete_mvv c
       = truthy (c_mission c) && truthy (c_vision c) && truthy (c_values c)
    /\ c_category c = series_get row (u "category") (Str [])
    /\ c_id c = u "company_" ++ str_of_nat (idx + 1).
Proof.
  unfold process_row, bind.
  destruct (py_float (series_get row (u "missionConfidence") (Num num_zero)))
    as [fm | e]; [| discriminate].
  destruct (py_float (series_get row (u "visionConfidence") (Num num_zero)))
    as [fv | e]; [| discriminate].
  destruct (py_float (series_get row (u "valuesConfidence") (Num num_zero)))
    as [fx | e]; [| discriminate].
  intros E. injection E as <-. exists fm, fv, fx. cbn.
  repeat split; reflexivity.
Qed.

Lemma truthy_true (s : pystr) : truthy s = true <-> s <> [].
Proof. destruct s; simpl; split; congruence. Qed.

Lemma truthy_false (s : pystr) : truthy s = false <-> s = [].
Proof. destruct s; simpl; split; congruence. Qed.

(** C2: a processed company is flagged complete exactly when its three
    cleaned texts are all non-empty. *)
Theorem has_complete_mvv_iff (idx : nat) (row : Series) (c : Company) :
  process_row idx row = Ok c ->
  (c_mission c = _clean_text (series_get row (u "mission") (Str []))
   /\ c_vision c = _clean_text (series_get row (u "vision") (Str []))
   /\ c_values c = _clean_text (series_get row (u "values") (Str [])))
  /\ (c_has_complete_mvv c = true <->
      c_mission c <> [] /\ c_vision c <> [] /\ c_values c <> [])
  /\ (c_has_complete_mvv c = false <->
      c_mission c = [] \/ c_vision c = [] \/ c_values c = []).
Proof.
  intros E. apply process_row_ok_inv in E.
  destruct E as (fm & fv & fx & _ & _ & _ & _ & Em & Ev & Ex & _ & Eh & _).
  split; [auto |]. rewrite Eh. split.
  - rewrite !andb_true_iff, !truthy_true. tauto.
  - rewrite !andb_false_iff, !truthy_false. tauto.
Qed.

End Cleaning.

(** ** The row loop *)

Section RowLoop.

Context {PN : PyNum} {PL : PyNumLaws PN}.

Lemma fold_preprocess (irs : list (nat * Series)) (st : loop_state) :
  fold_left preprocess_step irs st
  = (fst st ++ successes irs, snd st ++ failures irs).
Proof.
  revert st. induction irs as [| [idx row] irs IH]; intros [cs ws]; simpl.
  - now rewrite !app_nil_r.
  - rewrite IH. destruct (process_row idx row) as [c | e]; simpl.
    + now rewrite <- app_assoc.
    + now rewrite <- app_assoc.
Qed.

Lemma preprocess_loop_spec (df : DataFrame) :
  preprocess_loop df = (successes (iterrows df), failures (iterrows df)).
Proof. unfold preprocess_loop. now rewrite fold_preprocess. Qed.

Lemma preprocess_returns (self : MVVDataProcessor) (df : DataFrame) :
  data self = Some df ->
  preprocess_mvv_data self
  = ({| csv_path := csv_path self; data := Some df;
        processed_data := Some (successes (iterrows df)) |},
     Ok (successes (iterrows df))).
Proof.
  intros E. unfold preprocess_mvv_data. rewrite E, preprocess_loop_spec.
  reflexivity.
Qed.

Lemma iterrows_from_index (i : nat) (cols : list pystr) (rs : list (list cell)) :
  map fst (iterrows_from i cols rs) = seq i (length rs)
  /\ map snd (iterrows_from i cols rs) = map (combine cols) rs.
Proof.
  revert i. induction rs as [| r rs IH]; intros i; simpl; [auto |].
  destruct (IH (S i)) as [-> ->]. auto.
Qed.

Lemma py_float_ok (row : Series) (key : pystr) (f : pyfloat num) :
  py_float (series_get row key (Num num_zero)) = Ok f ->
  unparseable row key = false /\ overflowing row key = false.
Proof.
  unfold unparseable, overflowing, series_get.
  destruct (series_lookup key row) as [[oid | s | x] |]; cbn [py_float].
  - auto.
  - destruct (float_of_str s); [auto | discriminate].
  - destruct (num_float x); [auto | discriminate].
  - destruct (num_float num_zero); [auto | discriminate].
Qed.


(** [float] raises ValueError on a string it cannot parse and
    OverflowError on a number it cannot convert, and nothing else. *)
Lemma py_float_raise (row : Series) (key : pystr) (e : exn) :
  py_float (series_get row key (Num num_zero)) = Raise e ->
  (exc_type e = ValueError /\ unparseable row key = true)
  \/ (exc_type e = OverflowError /\ overflowing row key = true).
Proof.
  unfold unparseable, overflowing, series_get.
  destruct (series_lookup key row) as [[oid | s | x] |]; cbn [py_float].
  - discriminate.
  - destruct (float_of_str s); [discriminate |].
    intros E. injection E as <-. auto.
  - destruct (num_float x); [discriminate |].
    intros E. injection E as <-. auto.
  - destruct (num_float num_zero); [discriminate |].
    intros E. injection E as <-. auto.
Qed.

(** Only [float] raises in the body of the loop. *)
Lemma process_row_raise (idx : nat) (row : Series) (e : exn) :
  process_row idx row = Raise e ->
  (exc_type e = ValueError /\ existsb (unparseable row) CONFIDENCE_KEYS = true)
  \/ (exc_type e = OverflowError
      /\ existsb (overflowing row) CONFIDENCE_KEYS = true).
Proof.
  unfold process_row, bind. cbn [existsb CONFIDENCE_KEYS].
  destruct (py_float (series_get row (u "missionConfidence") (Num num_zero)))
    as [fm | e1] eqn:Hm.
  2:{ intros E. injection E as <-. apply py_float_raise in Hm.
      destruct Hm as [[T U] | [T U]]; rewrite U; auto. }
  destruct (py_float (series_get row (u "visionConfidence") (Num num_zero)))
    as [fv | e2] eqn:Hv.
  2:{ intros E. injection E as <-. apply py_float_raise in Hv.
      destruct Hv as [[T U] | [T U]]; rewrite U, orb_true_r; auto. }
  destruct (py_float (series_get row (u "valuesConfidence") (Num num_zero)))
    as [fx | e3] eqn:Hx.
  2:{ intros E. injection E as <-. apply py_float_raise in Hx.
      destruct Hx as [[T U] | [T U]]; rewrite U, !orb_true_r; auto. }
  discriminate.
Qed.

(** A processed row has no confidence that [float] rejects. *)
Lemma process_row_ok_accepted (idx : nat) (row : Series) (c : Company) :
  process_row idx row = Ok c ->
  existsb (unparseable row) CONFIDENCE_KEYS = false
  /\ existsb (overflowing row) CONFIDENCE_KEYS = false.
Proof.
  intros E. apply process_row_ok_inv in E.
  destruct E as (fm & fv & fx & Hm & Hv & Hx & _).
  apply py_float_ok in Hm, Hv, Hx.
  destruct Hm as [Um Om], Hv as [Uv Ov], Hx as [Ux Ox].
  cbn [existsb CONFIDENCE_KEYS]. rewrite Um, Uv, Ux, Om, Ov, Ox. auto.
Qed.





End RowLoop.

(** ** Grouping by category *)

Section Grouping.

Context {PN : PyNum} {PL : PyNumLaws PN}.

Lemma pystr_eqb_eq (a b : pystr) : pystr_eqb a b = true <-> a = b.
Proof.
  revert b. induction a as [| x a IH]; intros [| y b]; simpl;
    try (split; congruence).
  rewrite andb_true_iff, N.eqb_eq, IH. split.
  - intros [-> ->]. reflexivity.
  - intros E. injection E. auto.
Qed.

Lemma pystr_eqb_refl (a : pystr) : pystr_eqb a a = true.
Proof. now apply pystr_eqb_eq. Qed.

Lemma key_eqb_refl (a : cell) : key_eqb a a = true.
Proof.
  destruct a; simpl.
  - apply N.eqb_refl.
  - apply pystr_eqb_refl.
  - apply num_eqb_refl.
Qed.

Lemma key_eqb_sym (a b : cell) : key_eqb a b = key_eqb b a.
Proof.
  destruct a, b; simpl; trivial.
  - apply N.eqb_sym.
  - destruct (pystr_eqb s s0) eqn:E, (pystr_eqb s0 s) eqn:E'; trivial.
    + apply pystr_eqb_eq in E. subst. now rewrite pystr_eqb_refl in E'.
    + apply pystr_eqb_eq in E'. subst. now rewrite pystr_eqb_refl in E.
  - apply num_eqb_sym.
Qed.

Lemma key_eqb_trans (a b c : cell) :
  key_eqb a b = true -> key_eqb b c = true -> key_eqb a c = true.
Proof.
  destruct a, b, c; simpl; try discriminate.
  - rewrite !N.eqb_eq. congruence.
  - rewrite !pystr_eqb_eq. congruence.
  - apply num_eqb_trans.
Qed.

(** If [a] does not match [x] but [k] does, [a] does not match [k]. *)
Lemma key_eqb_apart (a k x : cell) :
  key_eqb a x = false -> key_eqb k x = true -> key_eqb a k = false.
Proof.
  intros A K. destruct (key_eqb a k) eqn:E; trivial.
  rewrite (key_eqb_trans _ _ _ E K) in A. discriminate.
Qed.

Lemma existsb_filter_apart (a x : cell) (ks : list cell) :
  key_eqb a x = false ->
  existsb (fun k => key_eqb k x) (filter (fun k' => negb (key_eqb a k')) ks)
  = existsb (fun k => key_eqb k x) ks.
Proof.
  intros A. induction ks as [| k ks IH]; simpl; trivial.
  destruct (key_eqb k x) eqn:K.
  - rewrite (key_eqb_apart _ _ _ A K). simpl. now rewrite K.
  - destruct (key_eqb a k); simpl; rewrite ?K; exact IH.
Qed.

Lemma first_seen_snoc (l : list cell) (x : cell) :
  first_seen (l ++ [x])
  = if existsb (fun k => key_eqb k x) (first_seen l)
    then first_seen l else first_seen l ++ [x].
Proof.
  induction l as [| a l IH]; simpl; trivial.
  rewrite IH. destruct (key_eqb a x) eqn:A; simpl.
  - destruct (existsb (fun k => key_eqb k x) (first_seen l)); trivial.
    rewrite filter_app. simpl. rewrite A. simpl. now rewrite app_nil_r.
  - rewrite (existsb_filter_apart _ _ _ A).
    destruct (existsb (fun k => key_eqb k x) (first_seen l)); trivial.
    rewrite filter_app. simpl. rewrite A. reflexivity.
Qed.

Lemma distinct_keys_filter (f : cell -> bool) (ks : list cell) :
  distinct_keys ks -> distinct_keys (filter f ks).
Proof.
  induction ks as [| k ks IH]; simpl; trivial.
  intros [H D]. destruct (f k); simpl; auto.
  split; auto. rewrite Forall_forall in *. intros k' I.
  apply filter_In in I. apply H, I.
Qed.

Lemma first_seen_distinct (l : list cell) : distinct_keys (first_seen l).
Proof.
  induction l as [| a l IH]; simpl; trivial. split.
  - apply Forall_forall. intros k I. apply filter_In in I.
    destruct I as [_ I]. now apply negb_true_iff in I.
  - now apply distinct_keys_filter.
Qed.

(** Every key is matched by one of the keys first seen. *)
Lemma first_seen_covers (l : list cell) (y : cell) :
  In y l -> existsb (fun k => key_eqb k y) (first_seen l) = true.
Proof.
  induction l as [| a l IH]; simpl; [tauto |].
  intros [-> | I].
  - now rewrite key_eqb_refl.
  - destruct (key_eqb a y) eqn:A; trivial. simpl.
    rewrite (existsb_filter_apart _ _ _ A). now apply IH.
Qed.

Lemma first_seen_incl (l : list cell) (k : cell) : In k (first_seen l) -> In k l.
Proof.
  induction l as [| a l IH]; simpl; trivial.
  intros [E | I]; auto. apply filter_In in I. right. apply IH, I.
Qed.

(** On distinct keys, appending adds the company to the list of the one
    key that matches its category. *)
Lemma dict_append_spec (d : CategoryDict) (x : cell) (c : Company) :
  distinct_keys (map fst d) ->
  dict_append d x c
  = map (fun kv => (fst kv, snd kv ++ (if key_eqb (fst kv) x then [c] else []))) d.
Proof.
  induction d as [| [k l] d IH]; simpl; trivial.
  intros [H D]. destruct (key_eqb k x) eqn:K.
  - f_equal. rewrite <- (map_id d) at 1. apply map_ext_in.
    intros [k' l'] I. simpl.
    rewrite Forall_forall in H.
    assert (A : key_eqb k k' = false)
      by (apply H; apply in_map_iff; exists (k', l'); auto).
    destruct (key_eqb k' x) eqn:K'.
    + rewrite key_eqb_sym in K'.
      rewrite (key_eqb_trans _ _ _ K K') in A. discriminate.
    + now rewrite app_nil_r.
  - rewrite app_nil_r. f_equal. now apply IH.
Qed.

Lemma dict_contains_keys (x : cell) (d : CategoryDict) :
  dict_contains x d = existsb (fun k => key_eqb k x) (map fst d).
Proof.
  unfold dict_contains. induction d as [| kv d IH]; simpl; congruence.
Qed.

Lemma filter_none (A : Type) (f : A -> bool) (l : list A) :
  (forall a, In a l -> f a = false) -> filter f l = [].
Proof.
  induction l as [| a l IH]; simpl; trivial.
  intros H. rewrite (H a) by auto. apply IH. auto.
Qed.

(** A key that matches none of the keys first seen has no company. *)
Lemma unseen_key_empty (cs : list Company) (x : cell) :
  existsb (fun k => key_eqb k x) (first_seen (map c_category cs)) = false ->
  filter (in_category x) cs = [].
Proof.
  intros E. apply filter_none. intros c I. unfold in_category.
  destruct (key_eqb x (c_category c)) eqn:X; trivial.
  assert (C : existsb (fun k => key_eqb k (c_category c))
                (first_seen (map c_category cs)) = true)
    by (apply first_seen_covers, in_map, I).
  apply existsb_exists in C. destruct C as (k & Ik & K).
  rewrite key_eqb_sym in X.
  assert (T : existsb (fun k => key_eqb k x) (first_seen (map c_category cs)) = true)
    by (apply existsb_exists; exists k; eauto using key_eqb_trans).
  congruence.
Qed.

(** The dictionary after the grouping loop: one entry per key first seen,
    holding the companies of that category in their order. *)
Lemma group_closed_form (cs : list Company) :
  group cs
  = map (fun k => (k, filter (in_category k) cs))
      (first_seen (map c_category cs)).
Proof.
  unfold group. induction cs as [| c cs IH] using rev_ind; trivial.
  rewrite fold_left_app. cbn [fold_left]. rewrite IH. clear IH.
  rewrite map_app. cbn [map].
  pose proof (first_seen_distinct (map c_category cs ++ [c_category c])) as D.
  rewrite first_seen_snoc in *.
  pose proof (unseen_key_empty cs (c_category c)) as U.
  set (l := map c_category cs) in *. set (x := c_category c) in *.
  unfold group_step. fold x.
  rewrite dict_contains_keys, map_map. cbn [fst]. rewrite map_id.
  assert (S : forall ks, map (fun k => (k, filter (in_category k) (cs ++ [c]))) ks
              = map (fun kv => (fst kv, snd kv ++ (if key_eqb (fst kv) x then [c] else [])))
                  (map (fun k => (k, filter (in_category k) cs)) ks)).
  { intros ks. rewrite map_map. apply map_ext. intros k. cbn [fst snd].
    rewrite filter_app. cbn [filter]. unfold in_category at 2. fold x.
    now destruct (key_eqb k x). }
  destruct (existsb (fun k => key_eqb k x) (first_seen l)) eqn:E; cbn [negb].
  - rewrite dict_append_spec.
    + symmetry. apply S.
    + rewrite map_map. cbn [fst]. now rewrite map_id.
  - rewrite dict_append_spec.
    + rewrite !map_app, <- S. cbn [map fst snd]. f_equal.
      rewrite filter_app, (U eq_refl). cbn [filter app].
      unfold in_category. fold x. now rewrite key_eqb_refl.
    + rewrite map_app, map_map. cbn [map fst]. now rewrite map_id.
Qed.

Lemma group_keys (cs : list Company) :
  map fst (group cs) = first_seen (map c_category cs).
Proof.
  rewrite group_closed_form, map_map. cbn [fst]. apply map_id.
Qed.

(** The lists of the dictionary hold the companies, each one once. *)
Lemma group_concat (cs : list Company) :
  Permutation (concat (map snd (group cs))) cs.
Proof.
  unfold group. induction cs as [| c cs IH] using rev_ind; [constructor |].
  rewrite fold_left_app. cbn [fold_left]. fold (group cs) in *.
  unfold group_step.
  assert (D : distinct_keys
                (map fst (if negb (dict_contains (c_category c) (group cs))
                          then group cs ++ [(c_category c, [])] else group cs))).
  { rewrite dict_contains_keys.
    pose proof (first_seen_distinct (map c_category cs ++ [c_category c])) as D.
    rewrite first_seen_snoc, <- group_keys in D.
    destruct (existsb _ (map fst (group cs))); cbn [negb]; trivial.
    now rewrite map_app. }
  assert (A : forall d : CategoryDict,
             dict_contains (c_category c) d = true -> distinct_keys (map fst d) ->
             Permutation (concat (map snd (dict_append d (c_category c) c)))
               (concat (map snd d) ++ [c])).
  { clear. induction d as [| [k l] d IHd]; [discriminate |].
    cbn [dict_contains existsb fst]. intros H [F Dd]. cbn [dict_append].
    destruct (key_eqb k (c_category c)) eqn:K; cbn [map snd concat].
    - rewrite <- !app_assoc. apply Permutation_app_head, Permutation_app_comm.
    - rewrite <- app_assoc. apply Permutation_app_head, IHd; trivial. }
  destruct (dict_contains (c_category c) (group cs)) eqn:E; cbn [negb] in *.
  - rewrite A by trivial. now apply Permutation_app_tail.
  - rewrite A; trivial.
    + rewrite map_app, concat_app. cbn. rewrite !app_nil_r.
      now apply Permutation_app_tail.
    + unfold dict_contains. rewrite existsb_app. cbn.
      now rewrite key_eqb_refl, orb_true_r.
Qed.

Lemma group_sizes (cs : list Company) :
  list_sum (map (fun kv => length (snd kv)) (group cs)) = length cs.
Proof.
  rewrite <- (Permutation_length (group_concat cs)), length_concat, map_map.
  reflexivity.
Qed.

End Grouping.

(** ** The analysis data and the output *)

Section Pipeline.

Context {PN : PyNum} {PL : PyNumLaws PN}.

Lemma analysis_data_inv (self : MVVDataProcessor) (now : datetime) (a : AnalysisData) :
  get_analysis_ready_data self now = Ok a ->
  exists processed,
    processed_data self = Some processed /\ processed <> []
    /\ a = {| total_companies := length processed;
              complete_mvv_companies := length (filter c_has_complete_mvv processed);
              companies := filter c_has_complete_mvv processed;
              by_category := group (filter c_has_complete_mvv processed);
              categories := map fst (group (filter c_has_complete_mvv processed));
              processed_at := isoformat now |}.
Proof.
  unfold get_analysis_ready_data.
  destruct (processed_data self) as [[| c l] |]; try discriminate.
  intros E. injection E as <-. exists (c :: l). repeat split. discriminate.
Qed.

(** C1: the count of complete companies is the length of [companies] and
    the sum of the lengths of the lists of [by_category]; the dictionary
    splits [companies] by category: each list is the companies of its key,
    the keys are distinct, every company has its key, and the lists
    together hold every company once. *)
Theorem analysis_bundle_partition
  (self : MVVDataProcessor) (now : datetime) (a : AnalysisData) :
  get_analysis_ready_data self now = Ok a ->
  complete_mvv_companies a = length (companies a)
  /\ complete_mvv_companies a
     = list_sum (map (fun kv => length (snd kv)) (by_category a))
  /\ (exists processed,
        processed_data self = Some processed
        /\ total_companies a = length processed
        /\ companies a = filter c_has_complete_mvv processed)
  /\ Permutation (concat (map snd (by_category a))) (companies a)
  /\ by_category a
     = map (fun k => (k, filter (in_category k) (companies a))) (categories a)
  /\ distinct_keys (categories a)
  /\ Forall (fun c => existsb (fun k => in_category k c) (categories a) = true)
       (companies a).
Proof.
  intros E. apply analysis_data_inv in E.
  destruct E as (processed & P & _ & ->). cbn.
  set (cs := filter c_has_complete_mvv processed).
  repeat split.
  - symmetry. apply group_sizes.
  - exists processed. auto.
  - apply group_concat.
  - rewrite group_keys. apply group_closed_form.
  - rewrite group_keys. apply first_seen_distinct.
  - apply Forall_forall. intros c I. rewrite group_keys.
    apply first_seen_covers, in_map, I.
Qed.

Lemma successes_failures_length (irs : list (nat * Series)) :
  length (successes irs) + length (failures irs) = length irs.
Proof.
  induction irs as [| [i r] irs IH]; simpl; trivial.
  rewrite !length_app. destruct (process_row i r); simpl; lia.
Qed.

(** C7: the call returns one company for each row that is processed
    without an exception, in the order of the rows; the keys of
    [by_category] come in the order in which they are first seen, and each
    list keeps the order of the companies. *)
Theorem order_preserved (self : MVVDataProcessor) (df : DataFrame) (now : datetime) :
  data self = Some df ->
  snd (preprocess_mvv_data self) = Ok (successes (iterrows df))
  /\ processed_data (fst (preprocess_mvv_data self)) = Some (successes (iterrows df))
  /\ map fst (iterrows df) = seq 0 (length (rows df))
  /\ map snd (iterrows df) = map (combine (columns df)) (rows df)
  /\ length (successes (iterrows df)) + length (failures (iterrows df))
     = length (rows df)
  /\ match get_analysis_ready_data (fst (preprocess_mvv_data self)) now with
     | Ok a =>
         companies a = filter c_has_complete_mvv (successes (iterrows df))
         /\ categories a = first_seen (map c_category (companies a))
         /\ by_category a
            = map (fun k => (k, filter (in_category k) (companies a)))
                (categories a)
     | Raise _ => successes (iterrows df) = []
     end.
Proof.
  intros E. rewrite (preprocess_returns self E). cbn [fst snd processed_data].
  destruct (iterrows_from_index 0 (columns df) (rows df)) as [I1 I2].
  repeat split; trivial.
  - rewrite successes_failures_length. unfold iterrows.
    rewrite <- (length_map fst), I1. apply length_seq.
  - match goal with |- match ?g with _ => _ end => destruct g as [a | e] eqn:G end.
    + apply analysis_data_inv in G. destruct G as (processed & P & _ & ->).
      cbn [processed_data] in P. injection P as <-.
      cbn [companies categories by_category]. rewrite group_keys.
      repeat split. apply group_closed_form.
    + unfold get_analysis_ready_data in G. cbn [processed_data] in G.
      destruct (successes (iterrows df)); [reflexivity | discriminate].
Qed.

(** C8, as amended: with no processed record the call raises ValueError,
    which [save_processed_data] lets through; with some it returns.  The
    failure of a row over a confidence string that [float] cannot parse is
    a ValueError as well, the class of the guard; the only other failure
    of a row, a number that [float] cannot convert, is an OverflowError. *)
Theorem empty_pipeline_guard (self : MVVDataProcessor) (now : datetime) :
  match processed_data self with
  | None | Some [] =>
      get_analysis_ready_data self now = Raise GUARD_ERROR
      /\ save_processed_data self now = Raise GUARD_ERROR
  | Some (_ :: _) => exists a, get_analysis_ready_data self now = Ok a
  end
  /\ exc_type GUARD_ERROR = ValueError
  /\ (forall (idx : nat) (row : Series),
        match process_row idx row with
        | Ok _ => existsb (unparseable row) CONFIDENCE_KEYS = false
        | Raise e =>
            (exc_type e = exc_type GUARD_ERROR
             /\ existsb (unparseable row) CONFIDENCE_KEYS = true)
            \/ (exc_type e = OverflowError
                /\ existsb (overflowing row) CONFIDENCE_KEYS = true)
        end)
  /\ (forall (idx : nat) (row : Series),
        if existsb (unparseable row) CONFIDENCE_KEYS
           && negb (existsb (overflowing row) CONFIDENCE_KEYS)
        then exists e,
            process_row idx row = Raise e /\ exc_type e = exc_type GUARD_ERROR
        else True).
Proof.
  split; [| split; [reflexivity | split]].
  - unfold save_processed_data, get_analysis_ready_data.
    destruct (processed_data self) as [[| c l] |]; cbn; eauto.
  - intros idx row. destruct (process_row idx row) as [c | e] eqn:E.
    + apply (process_row_ok_accepted idx row E).
    + exact (process_row_raise idx row E).
  - intros idx row.
    destruct (existsb (unparseable row) CONFIDENCE_KEYS) eqn:U; [| exact I].
    destruct (existsb (overflowing row) CONFIDENCE_KEYS) eqn:O; [exact I |].
    cbn [andb negb].
    destruct (process_row idx row) as [c | e] eqn:E.
    + destruct (process_row_ok_accepted idx row E) as [U' _]. congruence.
    + exists e. split; [reflexivity |].
      destruct (process_row_raise idx row E) as [[T _] | [_ O']];
        [exact T | congruence].
Qed.

Lemma join_snoc (sep : pystr) (xs : list pystr) (x y : pystr) :
  join sep ((x :: xs) ++ [y]) = join sep (x :: xs) ++ sep ++ y.
Proof.
  revert x. induction xs as [| z xs IH]; intros x.
  - reflexivity.
  - change (x ++ sep ++ join sep ((z :: xs) ++ [y])
            = (x ++ sep ++ join sep (z :: xs)) ++ sep ++ y).
    rewrite IH. now rewrite <- !app_assoc.
Qed.

Lemma dumps_dict_last (level : nat) (i : pystr * json)
  (items : list (pystr * json)) (k : pystr) (v : json) :
  dumps level (JDict ((i :: items) ++ [(k, v)]))
  = (u "{" ++ newline_indent (S level)
     ++ join (u "," ++ newline_indent (S level))
          (map (fun kv => encode_string (fst kv) ++ u ": " ++ dumps (S level) (snd kv))
             (i :: items))
     ++ u "," ++ newline_indent (S level))
    ++ encode_string k ++ u ": " ++ dumps (S level) v
    ++ newline_indent level ++ u "}".
Proof.
  cbn [app dumps].
  change (i :: items ++ [(k, v)]) with ((i :: items) ++ [(k, v)]).
  rewrite map_app. cbn [map fst snd].
  rewrite join_snoc. now rewrite <- !app_assoc.
Qed.

(** The text of the analysis data: the time stamp is the value of the
    last key, [processed_at], and what precedes it does not depend on it. *)
Lemma dumps_stamped (a : AnalysisData) :
  exists pre, forall ts : pystr,
    dumps 0 (json_of_analysis_data (with_processed_at a ts))
    = pre ++ encode_string (u "processed_at") ++ u ": " ++ encode_string ts
      ++ newline_indent 0 ++ u "}".
Proof.
  eexists. intros ts. unfold json_of_analysis_data, with_processed_at.
  cbn [total_companies complete_mvv_companies companies by_category
         categories processed_at].
  match goal with
  | |- dumps 0 (JDict [?a1; ?a2; ?a3; ?a4; ?a5; (?k, ?v)]) = _ =>
      change (JDict [a1; a2; a3; a4; a5; (k, v)])
        with (JDict ((a1 :: [a2; a3; a4; a5]) ++ [(k, v)]))
  end.
  rewrite dumps_dict_last. cbn [dumps]. reflexivity.
Qed.

(** What is written, when something is: the text of analysis data that
    are the same at every time but for [processed_at]. *)
Lemma save_stamped (self : MVVDataProcessor) :
  (exists e, forall now, save_processed_data self now = Raise e)
  \/ (exists a, forall now,
        get_analysis_ready_data self now
        = Ok (with_processed_at a (isoformat now))
        /\ save_processed_data self now
           = Ok (dumps 0 (json_of_analysis_data
                            (with_processed_at a (isoformat now))))).
Proof.
  unfold save_processed_data, get_analysis_ready_data.
  destruct (processed_data self) as [[| c l] |].
  - left. eexists. intros now. reflexivity.
  - right.
    exists {| total_companies := length (c :: l);
              complete_mvv_companies := length (filter c_has_complete_mvv (c :: l));
              companies := filter c_has_complete_mvv (c :: l);
              by_category := group (filter c_has_complete_mvv (c :: l));
              categories := map fst (group (filter c_has_complete_mvv (c :: l)));
              processed_at := [] |}.
    intros now. split; reflexivity.
  - left. eexists. intros now. reflexivity.
Qed.

(** C9: two runs on the same input end alike.  When they write the file,
    they write the text of analysis data that are the same in both runs
    but for the field [processed_at], which holds the time of the run; in
    the text the time is the value of the last key, "processed_at", and
    everything before it and after it is the same in both runs. *)
Theorem output_differs_only_in_timestamp (read_csv : pystr -> result DataFrame) :
  (forall now, main read_csv now = (1, None))
  \/ (exists (a : AnalysisData) (pre : pystr),
        forall now,
          main read_csv now
          = (0, Some (dumps 0 (json_of_analysis_data
                                 (with_processed_at a (isoformat now)))))
          /\ processed_at (with_processed_at a (isoformat now)) = isoformat now
          /\ dumps 0 (json_of_analysis_data (with_processed_at a (isoformat now)))
             = pre ++ encode_string (u "processed_at") ++ u ": "
               ++ encode_string (isoformat now) ++ newline_indent 0 ++ u "}").
Proof.
  unfold main.
  destruct (load_data (__init__ CSV_PATH) read_csv) as [p1 [df | e]]; [| now left].
  destruct (preprocess_mvv_data p1) as [p2 [l | e]]; [| now left].
  destruct (save_stamped p2) as [[e H] | (a & H)].
  - left. intros now. now rewrite H.
  - right. destruct (dumps_stamped a) as (pre & D).
    exists a, pre. intros now. destruct (H now) as [_ ->].
    split; [reflexivity | split; [reflexivity | apply D]].
Qed.

End Pipeline.

(** ** A frame without the [values] column *)

Section MissingColumn.

Context {PN : PyNum}.

Lemma lookup_absent_column (key : pystr) (cols : list pystr) (r : list cell) :
  existsb (pystr_eqb key) cols = false ->
  series_lookup key (combine cols r) = None.
Proof.
  revert r. induction cols as [| k cols IH]; intros r; simpl; trivial.
  intros H. apply orb_false_elim in H. destruct H as [H1 H2].
  destruct r as [| v r]; simpl; trivial.
  assert (E : pystr_eqb k key = false).
  { destruct (pystr_eqb k key) eqn:E; trivial.
    apply pystr_eqb_eq in E. subst k. now rewrite pystr_eqb_refl in H1. }
  rewrite E. now apply IH.
Qed.

(** The row loop alone copes with the missing column: every company it
    emits has an empty [values] and is not complete. *)
Lemma missing_values_rows (df : DataFrame) :
  existsb (pystr_eqb (u "values")) (columns df) = false ->
  Forall (fun c => c_values c = [] /\ c_has_complete_mvv c = false)
    (successes (iterrows df)).
Proof.
  intros H. apply Forall_forall. intros c I.
  unfold successes in I. apply in_flat_map in I. destruct I as ([i row] & I & Ic).
  cbn [fst snd] in Ic.
  destruct (process_row i row) as [c' | e] eqn:E; [| contradiction].
  destruct Ic as [<- | []].
  assert (R : exists r, row = combine (columns df) r).
  { destruct (iterrows_from_index 0 (columns df) (rows df)) as [_ S2].
    apply (in_map snd) in I. unfold iterrows in I. rewrite S2 in I.
    apply in_map_iff in I. destruct I as (r & Er & _). exists r.
    symmetry. exact Er. }
  destruct R as [r ->].
  apply process_row_ok_inv in E.
  destruct E as (_ & _ & _ & _ & _ & _ & _ & _ & _ & Ex & _ & Eh & _).
  unfold series_get in Ex. rewrite (lookup_absent_column _ _ r H) in Ex.
  rewrite Eh, Ex. split; [reflexivity |]. apply andb_false_r.
Qed.

(** The statistics printed by [load_data] index the column directly. *)
Lemma missing_values_stats (df : DataFrame) :
  existsb (pystr_eqb (u "values")) (columns df) = false ->
  exists e, _print_basic_stats df = Raise e /\ exc_type e = KeyError.
Proof.
  intros H. unfold _print_basic_stats, bind, frame_column. rewrite H.
  repeat match goal with
         | |- context [if ?b then _ else _] => destruct b
         end; eauto.
Qed.

Lemma missing_values_main (df : DataFrame) (read_csv : pystr -> result DataFrame)
  (now : datetime) :
  existsb (pystr_eqb (u "values")) (columns df) = false ->
  read_csv CSV_PATH = Ok df ->
  main read_csv now = (1, None).
Proof.
  intros H R. unfold main, load_data. cbn [csv_path __init__]. rewrite R.
  destruct (missing_values_stats df H) as (e & -> & _). reflexivity.
Qed.

End MissingColumn.

(** ** The worked inputs *)

Section Worked.

Import Samples.

#[local] Existing Instance Dec.DecNum.
#[local] Existing Instance DecNum_laws.

Example float_of_str_samples :
  map float_of_str (map u [ " 0.95 "; "1_0.5e-3"; "-inf"; "5."; ".5" ]%string)
  = [ Some (score 95 (-2)); Some (score 105 (-4)); Some (FNum (Dec.DInf true));
      Some (score 5 0); Some (score 5 (-1)) ]
  /\ map float_of_str (map u [ "abc"; ""; "1e"; "."; "1__0"; "0.5 x" ]%string)
     = [ None; None; None; None; None; None ].
Proof. split; vm_compute; reflexivity. Qed.

Example acme_processed : process_row 0 acme_row = Ok acme.
Proof. reflexivity. Qed.

Example acme_written :
  dumps 0 (json_of_company acme)
  = jlines
      [ "{";
        "  'id': 'company_1',";
        "  'name': 'Acme',";
        "  'website': 'https://acme.example',";
        "  'category': 'IT',";
        "  'mission': 'Build tools、 ship them',";
        "  'vision': 'See far',";
        "  'values': 'Integrity、 Respect、 Excellence',";
        "  'combined_mvv': 'Mission: Build tools、 ship them | Vision: See far | Values: Integrity、 Respect、 Excellence',";
        "  'confidence_scores': {";
        "    'mission': 0.9,";
        "    'vision': 0.0,";
        "    'values': 0.8";
        "  },";
        "  'extraction_source': 'openai',";
        "  'extracted_from': 'web',";
        "  'has_complete_mvv': true";
        "}" ]%string.
Proof. vm_compute. reflexivity. Qed.

Example sample_grouping :
  map c_id (companies sample_analysis)
  = map u [ "company_1"; "company_4"; "company_5" ]%string
  /\ map (fun kv => (json_key_of_cell (fst kv), map c_id (snd kv)))
       (by_category sample_analysis)
     = [ (u "IT", map u [ "company_1"; "company_5" ]%string);
         (u "Finance", map u [ "company_4" ]%string) ]
  /\ total_companies sample_analysis = 4
  /\ complete_mvv_companies sample_analysis = 3
  /\ processed_at sample_analysis = u "2025-07-09T08:05:03.001200".
Proof. repeat split; vm_compute; reflexivity. Qed.

(** With no complete company the file still lists the six keys. *)
Example nothing_complete_written :
  save_processed_data
    {| csv_path := CSV_PATH; data := None;
       processed_data :=
         Some (filter (fun c => negb (c_has_complete_mvv c))
                 (successes (iterrows sample_frame))) |}
    sample_now
  = Ok (jlines
          [ "{";
            "  'total_companies': 1,";
            "  'complete_mvv_companies': 0,";
            "  'companies': [],";
            "  'by_category': {},";
            "  'categories': [],";
            "  'processed_at': '2025-07-09T08:05:03.001200'";
            "}" ]%string).
Proof. vm_compute. reflexivity. Qed.

(** C4, counterexample: the cleaned text keeps the space that follows each
    semicolon, so it is not the string without spaces. *)
Lemma clean_text_keeps_space_after_semicolon :
  _clean_text (txt "Integrity; Respect; Excellence")
  <> u "Integrity、Respect、Excellence".
Proof. vm_compute. discriminate. Qed.


(** C8, counterexample: the guard and the failure of a row raise the same
    class of exception. *)
Lemma guard_and_row_error_same_class :
  get_analysis_ready_data (__init__ CSV_PATH) sample_now = Raise GUARD_ERROR
  /\ process_row 2 gamma_row = Raise (Exn ValueError (u "abc"))
  /\ ~ exc_type GUARD_ERROR <> exc_type (Exn ValueError (u "abc")).
Proof.
  split; [| split].
  - reflexivity.
  - reflexivity.
  - intros H. apply H. reflexivity.
Qed.

(** C5, the code on a frame without the [values] column: the statistics
    of [load_data] raise KeyError and [main] ends with status 1, though the
    row loop alone would emit the company with an empty [values]. *)
Theorem missing_values_column_stops_run :
  _print_basic_stats frame_without_values = Raise (Exn KeyError (u "values"))
  /\ snd (load_data (__init__ CSV_PATH) (fun _ => Ok frame_without_values))
     = Raise (Exn KeyError (u "values"))
  /\ (forall now, main (fun _ => Ok frame_without_values) now = (1, None))
  /\ map (fun c => (c_id c, c_values c, c_has_complete_mvv c))
       (successes (iterrows frame_without_values))
     = [ (u "company_1", [], false) ].
Proof.
  split; [| split; [| split]].
  - vm_compute. reflexivity.
  - reflexivity.
  - intros now. vm_compute. reflexivity.
  - vm_compute. reflexivity.
Qed.

Lemma has_complete_mvv_iff_witness :
  process_row 0 acme_row = Ok acme
  /\ (c_has_complete_mvv acme = true <->
      c_mission acme <> [] /\ c_vision acme <> [] /\ c_values acme <> []).
Proof.
  assert (E : process_row 0 acme_row = Ok acme) by reflexivity.
  split; [exact E |].
  exact (proj1 (proj2 (has_complete_mvv_iff 0 acme_row E))).
Defined.


Lemma analysis_bundle_partition_witness :
  exists a : AnalysisData,
    get_analysis_ready_data processed sample_now = Ok a
    /\ complete_mvv_companies a = length (companies a)
    /\ complete_mvv_companies a
       = list_sum (map (fun kv => length (snd kv)) (by_category a)).
Proof.
  destruct (get_analysis_ready_data processed sample_now) as [a | e] eqn:E.
  - exists a. split; [reflexivity |].
    pose proof (analysis_bundle_partition processed sample_now E) as H.
    split; [exact (proj1 H) | exact (proj1 (proj2 H))].
  - exfalso.
    apply (f_equal (fun r => match r with Ok _ => true | Raise _ => false end)) in E.
    vm_compute in E. discriminate E.
Defined.

Lemma order_preserved_witness :
  data loaded = Some sample_frame
  /\ snd (preprocess_mvv_data loaded) = Ok (successes (iterrows sample_frame))
  /\ processed_data (fst (preprocess_mvv_data loaded))
     = Some (successes (iterrows sample_frame)).
Proof.
  assert (E : data loaded = Some sample_frame) by reflexivity.
  split; [exact E |].
  pose proof (order_preserved loaded sample_now E) as H.
  split; [exact (proj1 H) | exact (proj1 (proj2 H))].
Defined.

End Worked.

(** * Further properties *)

(** ** What the cleaning keeps and what it drops *)

Section Trimming.

Lemma lstrip_split (s : pystr) :
  exists p, s = p ++ lstrip s /\ forallb py_isspace p = true.
Proof.
  induction s as [| c r (p & E & A)]; simpl.
  - exists []. auto.
  - destruct (py_isspace c) eqn:C.
    + exists (c :: p). simpl. rewrite C, A. split; [now f_equal | reflexivity].
    + exists []. auto.
Qed.

Lemma forallb_rev (A : Type) (f : A -> bool) (l : list A) :
  forallb f (rev l) = forallb f l.
Proof.
  induction l as [| a l IH]; simpl; trivial.
  rewrite forallb_app, IH. simpl. rewrite andb_true_r. apply andb_comm.
Qed.

Lemma existsb_rev (A : Type) (f : A -> bool) (l : list A) :
  existsb f (rev l) = existsb f l.
Proof.
  induction l as [| a l IH]; simpl; trivial.
  rewrite existsb_app, IH. simpl. rewrite orb_false_r. apply orb_comm.
Qed.

Lemma rstrip_split (s : pystr) :
  exists q, s = rstrip s ++ q /\ forallb py_isspace q = true.
Proof.
  destruct (lstrip_split (rev s)) as (p & E & A).
  exists (rev p). split.
  - unfold rstrip. rewrite <- rev_app_distr, <- E. symmetry. apply rev_involutive.
  - now rewrite forallb_rev.
Qed.

(** Stripping removes white space at the two ends and nothing else. *)
Lemma strip_split (s : pystr) :
  exists pre post,
    s = pre ++ strip s ++ post
    /\ forallb py_isspace pre = true /\ forallb py_isspace post = true.
Proof.
  destruct (lstrip_split s) as (p & E & A).
  destruct (rstrip_split (lstrip s)) as (q & E' & A').
  exists p, q. unfold strip. rewrite <- E', <- E. auto.
Qed.

Lemma truthy_rev (s : pystr) : truthy (rev s) = truthy s.
Proof.
  destruct s as [| c r]; simpl; trivial.
  now destruct (rev r).
Qed.

Lemma lstrip_has_text (s : pystr) :
  truthy (lstrip s) = has_text s /\ has_text (lstrip s) = has_text s.
Proof.
  unfold has_text. induction s as [| c r [IH1 IH2]]; simpl; [auto |].
  destruct (py_isspace c) eqn:C; simpl; [auto |].
  now rewrite C.
Qed.

Lemma strip_has_text (s : pystr) : truthy (strip s) = has_text s.
Proof.
  unfold strip, rstrip. rewrite truthy_rev.
  rewrite (proj1 (lstrip_has_text _)). unfold has_text.
  rewrite existsb_rev. apply lstrip_has_text.
Qed.

Lemma replaced_spaces (s : pystr) :
  forallb py_isspace (map semicolon_to_comma s) = forallb py_isspace s.
Proof.
  induction s as [| c r IH]; simpl; trivial.
  now rewrite semicolon_to_comma_space, IH.
Qed.

Lemma normalise_has_text (s : pystr) : truthy (normalise s) = has_text s.
Proof.
  unfold normalise. rewrite <- strip_has_text. now destruct (strip s).
Qed.

End Trimming.

Section CleaningMore.

Context {PN : PyNum}.

Lemma clean_text_has_text (x : cell) : truthy (_clean_text x) = cell_has_text x.
Proof.
  rewrite clean_text_normalise. destruct x as [oid | s | n]; cbn.
  - reflexivity.
  - destruct s; [reflexivity | apply normalise_has_text].
  - apply normalise_has_text.
Qed.

(** X4: a cell cleans to the empty string exactly when it holds no text:
    it is missing, or empty, or white space only.  A processed company is
    complete exactly when its three cells hold a text; an absent column
    counts as an empty cell. *)
Theorem complete_iff_cells_have_text (x : cell) (idx : nat) (row : Series) :
  (_clean_text x = [] <-> cell_has_text x = false)
  /\ match process_row idx row with
     | Ok c =>
         c_has_complete_mvv c
         = cell_has_text (series_get row (u "mission") (Str []))
           && cell_has_text (series_get row (u "vision") (Str []))
           && cell_has_text (series_get row (u "values") (Str []))
     | Raise _ => True
     end.
Proof.
  split.
  - rewrite <- clean_text_has_text. symmetry. apply truthy_false.
  - destruct (process_row idx row) as [c | e] eqn:E; [| trivial].
    apply process_row_ok_inv in E.
    destruct E as (_ & _ & _ & _ & _ & _ & _ & Em & Ev & Ex & _ & Eh & _).
    rewrite Eh, Em, Ev, Ex, !clean_text_has_text. reflexivity.
Qed.

(** X5: the cleaned text of a string is the string with its semicolons
    replaced, less the white space at its two ends: what is cut off at
    either end is white space only, the cleaned text itself neither
    begins nor ends with white space, the characters in between, white
    space included, are kept in place, and the text gets no longer. *)
Theorem clean_text_trims_ends (s : pystr) :
  (exists pre post,
      map semicolon_to_comma s = pre ++ _clean_text (Str s) ++ post
      /\ forallb py_isspace pre = true /\ forallb py_isspace post = true)
  /\ head_space (_clean_text (Str s)) = false
  /\ last_space (_clean_text (Str s)) = false
  /\ length (_clean_text (Str s)) <= length s.
Proof.
  split; [| split; [apply clean_text_clean | split; [apply clean_text_clean |]]].
  - rewrite clean_text_str. unfold normalise.
    destruct (strip_split s) as (pre & post & E & A & B).
    exists (map semicolon_to_comma pre), (map semicolon_to_comma post).
    rewrite <- !map_app, <- E. split; [reflexivity |].
    rewrite !replaced_spaces. auto.
  - rewrite clean_text_str. unfold normalise.
    rewrite length_map. apply strip_length.
Qed.

(** X6: the combined text is empty exactly when the three texts are; with
    the three present it is the three labelled texts with two separators. *)
Theorem combined_mvv_cases (mission vision values : pystr) (a b c : N) :
  (_create_combined_mvv mission vision values = [] <->
   mission = [] /\ vision = [] /\ values = [])
  /\ _create_combined_mvv (a :: mission) (b :: vision) (c :: values)
     = u "Mission: " ++ (a :: mission) ++ u " | " ++ u "Vision: " ++ (b :: vision)
       ++ u " | " ++ u "Values: " ++ (c :: values)
  /\ _create_combined_mvv (a :: mission) [] [] = u "Mission: " ++ (a :: mission)
  /\ _create_combined_mvv [] (b :: vision) [] = u "Vision: " ++ (b :: vision)
  /\ _create_combined_mvv [] [] (c :: values) = u "Values: " ++ (c :: values).
Proof.
  split; [| repeat split; unfold _create_combined_mvv; cbn [truthy app join];
            now rewrite <- ?app_assoc].
  split.
  - destruct mission, vision, values; auto; discriminate.
  - intros (-> & -> & ->). reflexivity.
Qed.

End CleaningMore.

(** ** Loading and running *)

Section Running.

Context {PN : PyNum}.

(** The statistics raise KeyError for the first column they do not find,
    ZeroDivisionError on a frame without rows, and give their counts
    otherwise. *)
Lemma print_basic_stats_outcome (df : DataFrame) :
  _print_basic_stats df
  = match find (fun k => negb (has_column df k)) STATS_COLUMNS with
    | Some k => Raise (Exn KeyError k)
    | None =>
        match rows df with
        | [] => Raise (Exn ZeroDivisionError (u "division by zero"))
        | _ :: _ =>
            Ok {| st_total := length (rows df);
                  st_completed :=
                    length (filter (cell_is_str (u "completed"))
                              (column_cells df (u "status")));
                  st_mission_filled := length (filter filled (column_cells df (u "mission")));
                  st_vision_filled := length (filter filled (column_cells df (u "vision")));
                  st_values_filled := length (filter filled (column_cells df (u "values"))) |}
        end
    end.
Proof.
  unfold _print_basic_stats, frame_column, bind, STATS_COLUMNS, has_column.
  cbn [find].
  destruct (existsb (pystr_eqb (u "status")) (columns df)); [| reflexivity].
  destruct (existsb (pystr_eqb (u "category")) (columns df)); [| reflexivity].
  destruct (existsb (pystr_eqb (u "mission")) (columns df)); [| reflexivity].
  destruct (existsb (pystr_eqb (u "vision")) (columns df)); [| reflexivity].
  destruct (existsb (pystr_eqb (u "values")) (columns df)); [| reflexivity].
  cbn [negb]. unfold column_cells. destruct (rows df); reflexivity.
Qed.

(** X1: [load_data] returns the frame when the file is read, the frame
    has the five columns of the statistics and at least one row.  It
    raises what the reading raised, KeyError for the first of the five
    columns that is absent, ZeroDivisionError on a frame without rows; in
    the last two cases [self.data] holds the frame all the same.  It never
    touches [processed_data]. *)
Theorem load_data_outcome
  (self : MVVDataProcessor) (read_csv : pystr -> result DataFrame) :
  match read_csv (csv_path self) with
  | Raise e => load_data self read_csv = (self, Raise e)
  | Ok df =>
      fst (load_data self read_csv)
      = {| csv_path := csv_path self; data := Some df;
           processed_data := processed_data self |}
      /\ snd (load_data self read_csv)
         = match find (fun k => negb (has_column df k)) STATS_COLUMNS with
           | Some k => Raise (Exn KeyError k)
           | None =>
               match rows df with
               | [] => Raise (Exn ZeroDivisionError (u "division by zero"))
               | _ :: _ => Ok df
               end
           end
  end.
Proof.
  unfold load_data. destruct (read_csv (csv_path self)) as [df | e]; trivial.
  rewrite print_basic_stats_outcome.
  destruct (find (fun k => negb (has_column df k)) STATS_COLUMNS); [auto |].
  destruct (rows df); auto.
Qed.

(** X3: running [preprocess_mvv_data] again gives the same list and the
    same object: the list is rebuilt from [self.data], not appended to,
    and what [processed_data] held before does not matter. *)
Theorem preprocess_rerun (self other : MVVDataProcessor) :
  preprocess_mvv_data (fst (preprocess_mvv_data self)) = preprocess_mvv_data self
  /\ data (fst (preprocess_mvv_data self)) = data self
  /\ (data other = data self ->
      snd (preprocess_mvv_data other) = snd (preprocess_mvv_data self)).
Proof.
  unfold preprocess_mvv_data.
  destruct (data self) as [df |] eqn:D; cbn [fst snd data]; rewrite ?D;
    (split; [reflexivity | split; [reflexivity |]]);
    intros E; rewrite E; reflexivity.
Qed.

End Running.

(** ** Bounds on the analysis data and on the statistics *)

Section Bounds.

Context {PN : PyNum} {PL : PyNumLaws PN}.

Lemma first_seen_length (l : list cell) : length (first_seen l) <= length l.
Proof.
  induction l as [| a l IH]; simpl; trivial.
  pose proof (filter_length_le (fun k' => negb (key_eqb a k')) (first_seen l)).
  lia.
Qed.

(** Every key of the dictionary has a company. *)
Lemma group_lists_nonempty (cs : list Company) :
  Forall (fun kv => snd kv <> []) (group cs).
Proof.
  rewrite group_closed_form. apply Forall_forall. intros [k l] I.
  apply in_map_iff in I. destruct I as (k' & E & I). injection E as <- <-.
  apply first_seen_incl, in_map_iff in I. destruct I as (c & <- & I).
  cbn [snd]. intros F.
  assert (M : In c (filter (in_category (c_category c)) cs)).
  { apply filter_In. split; trivial. apply key_eqb_refl. }
  rewrite F in M. destruct M.
Qed.

(** X8: in the analysis data every company of [companies] is complete,
    the complete count is at most the total, which is at least one; no
    category has an empty list, there are at most as many categories as
    complete companies, and none exactly when no company is complete. *)
Theorem analysis_data_bounds
  (self : MVVDataProcessor) (now : datetime) (a : AnalysisData) :
  get_analysis_ready_data self now = Ok a ->
  Forall (fun c => c_has_complete_mvv c = true) (companies a)
  /\ complete_mvv_companies a <= total_companies a
  /\ 1 <= total_companies a
  /\ Forall (fun kv => snd kv <> []) (by_category a)
  /\ length (categories a) = length (by_category a)
  /\ length (categories a) <= complete_mvv_companies a
  /\ (categories a = [] <-> companies a = []).
Proof.
  intros E. apply analysis_data_inv in E.
  destruct E as (processed & P & N & ->).
  cbn [companies complete_mvv_companies total_companies by_category categories].
  set (cs := filter c_has_complete_mvv processed).
  repeat split.
  - apply Forall_forall. intros c I. apply filter_In in I. apply I.
  - apply filter_length_le.
  - destruct processed; [congruence | simpl; lia].
  - apply group_lists_nonempty.
  - apply length_map.
  - rewrite group_keys. etransitivity; [apply first_seen_length |].
    now rewrite length_map.
  - rewrite group_keys. destruct cs; [trivial | discriminate].
  - intros ->. reflexivity.
Qed.

Lemma has_text_filled (row : Series) (key : pystr) :
  cell_has_text (series_get row key (Str [])) = true ->
  filled (series_get row key (NaN 0)) = true.
Proof.
  unfold series_get. destruct (series_lookup key row) as [[oid | s | n] |];
    try discriminate; trivial.
  destruct s; [discriminate | reflexivity].
Qed.

Lemma complete_le_filled (key : pystr) (irs : list (nat * Series)) :
  In key [ u "mission"; u "vision"; u "values" ] ->
  length (filter c_has_complete_mvv (successes irs))
  <= length (filter filled (map (fun ir => series_get (snd ir) key (NaN 0)) irs)).
Proof.
  intros K. unfold successes.
  induction irs as [| [i row] irs IH]; cbn [flat_map map fst snd]; trivial.
  rewrite filter_app, length_app.
  assert (H : length
                (filter c_has_complete_mvv
                   match process_row i row with
                   | Ok c => [c]
                   | Raise _ => []
                   end)
              <= if filled (series_get row key (NaN 0)) then 1 else 0).
  { destruct (process_row i row) as [c | e] eqn:E; [| simpl; lia].
    cbn [filter]. destruct (c_has_complete_mvv c) eqn:C; [| simpl; lia].
    apply process_row_ok_inv in E.
    destruct E as (_ & _ & _ & _ & _ & _ & _ & Em & Ev & Ex & _ & Eh & _).
    rewrite Eh, Em, Ev, Ex, !clean_text_has_text, !andb_true_iff in C.
    destruct C as [[Cm Cv] Cx].
    assert (F : filled (series_get row key (NaN 0)) = true).
    { destruct K as [<- | [<- | [<- | []]]]; now apply has_text_filled. }
    rewrite F. simpl. lia. }
  cbn [filter]. destruct (filled (series_get row key (NaN 0))); simpl in *; lia.
Qed.

Lemma iterrows_column (df : DataFrame) (key : pystr) :
  map (fun ir => series_get (snd ir) key (NaN 0)) (iterrows df)
  = column_cells df key.
Proof.
  destruct (iterrows_from_index 0 (columns df) (rows df)) as [_ I].
  unfold column_cells.
  rewrite <- (map_map snd (fun row => series_get row key (NaN 0))).
  unfold iterrows. rewrite I. apply map_map.
Qed.

(** X9: when the statistics are printed, the total is the number of rows,
    each of the other counts is at most the total, and the companies that
    come out complete are at most as many as the filled cells of each of
    the three text columns. *)
Theorem stats_bound_complete (df : DataFrame) (st : BasicStats) :
  _print_basic_stats df = Ok st ->
  st_total st = length (rows df)
  /\ 1 <= st_total st
  /\ st_completed st <= st_total st
  /\ st_mission_filled st <= st_total st
  /\ st_vision_filled st <= st_total st
  /\ st_values_filled st <= st_total st
  /\ length (filter c_has_complete_mvv (successes (iterrows df)))
     <= Nat.min (st_mission_filled st)
          (Nat.min (st_vision_filled st) (st_values_filled st)).
Proof.
  rewrite print_basic_stats_outcome.
  destruct (find (fun k => negb (has_column df k)) STATS_COLUMNS); [discriminate |].
  destruct (rows df) as [| r rs] eqn:R; [discriminate |].
  intros E. injection E as <-.
  cbn [st_total st_completed st_mission_filled st_vision_filled st_values_filled].
  assert (L : forall (f : cell -> bool) key,
             length (filter f (column_cells df key)) <= length (r :: rs)).
  { intros f key. etransitivity; [apply filter_length_le |].
    unfold column_cells. now rewrite length_map, R. }
  repeat split; try apply L; [simpl; lia |].
  rewrite <- !iterrows_column.
  repeat apply Nat.min_glb; apply complete_le_filled; simpl; auto.
Qed.

End Bounds.

(** ** The further properties on the worked inputs *)

Section WorkedFurther.

Import Samples.

#[local] Existing Instance Dec.DecNum.
#[local] Existing Instance DecNum_laws.

Example sample_cells :
  map cell_has_text [ txt "  "; txt " a "; NaN 1; txt ""; flt 5 (-1) ]
  = [ false; true; false; false; true ]
  /\ map py_float [ Num (Dec.DInt 3); Num (Dec.DInt (10 ^ 400)); Num (Dec.DBool true) ]
     = [ Ok (score 3 0);
         Raise (Exn OverflowError (u "int too large to convert to float"));
         Ok (score 1 0) ].
Proof. split; [vm_compute; reflexivity | reflexivity]. Qed.

Lemma analysis_data_bounds_witness :
  exists a : AnalysisData,
    get_analysis_ready_data processed sample_now = Ok a
    /\ complete_mvv_companies a <= total_companies a
    /\ length (categories a) <= complete_mvv_companies a.
Proof.
  destruct (get_analysis_ready_data processed sample_now) as [a | e] eqn:E.
  - exists a. split; [reflexivity |].
    pose proof (analysis_data_bounds processed sample_now E) as H.
    split; [apply H | apply H].
  - exfalso.
    apply (f_equal (fun r => match r with Ok _ => true | Raise _ => false end)) in E.
    vm_compute in E. discriminate E.
Defined.

Lemma stats_bound_complete_witness :
  _print_basic_stats sample_frame
  = Ok {| st_total := 5; st_completed := 4; st_mission_filled := 4;
          st_vision_filled := 5; st_values_filled := 5 |}
  /\ length (filter c_has_complete_mvv (successes (iterrows sample_frame)))
     <= Nat.min 4 (Nat.min 5 5).
Proof.
  assert (E : _print_basic_stats sample_frame
              = Ok {| st_total := 5; st_completed := 4; st_mission_filled := 4;
                      st_vision_filled := 5; st_values_filled := 5 |})
    by (vm_compute; reflexivity).
  split; [exact E |].
  exact (proj2 (proj2 (proj2 (proj2 (proj2 (proj2
           (stats_bound_complete sample_frame E))))))).
Defined.

End WorkedFurther.
